(** * health-buddie-log: the browser-side data-access layer [src/lib/api.ts]

    A shallow embedding of the session store, the header builder, the mock
    data generators and the request gateway, together with the part of the
    JavaScript runtime they rely on (strings, [JSON.parse]/[JSON.stringify],
    [Date], [encodeURIComponent], [localStorage], [fetch]).

    Conventions.
    - A JavaScript string is the list of its UTF-16 code units, [list N].
      String literals of the source are written [lit "..."].
    - [localStorage] and header objects are finite maps (stdpp's [gmap]).
    - Effects (storage, clock, console, network) are threaded through a
      state-and-exception monad [M]; a rejected promise and a thrown exception
      are both the outcome [Throw]. *)

From Stdlib Require Import ZArith NArith String Ascii List Lia DecimalString.
From stdpp Require Import gmap list.

Local Open Scope N_scope.

(** ** JavaScript strings *)

Abbreviation jsstr := (list N).

(** The code units of an ASCII source literal. *)
Definition lit (s : string) : jsstr :=
  map N_of_ascii (list_ascii_of_string s).

(** Decimal digits of a natural number, as [Number.prototype.toString] prints
    an integer below 10^21. *)
Definition dec_N (n : N) : jsstr :=
  lit (NilEmpty.string_of_uint (N.to_uint n)).

Definition dec_Z (z : Z) : jsstr :=
  match z with
  | Zneg p => lit "-" ++ dec_N (Npos p)
  | _ => dec_N (Z.to_N z)
  end.

(** [w] decimal digits of [n], zero padded (the low [w] digits). *)
Fixpoint dec_fixed (w : nat) (n : N) : jsstr :=
  match w with
  | O => []
  | S w' => dec_fixed w' (n / 10) ++ [48 + n mod 10]
  end.

(** ** JSON values *)

(** A JSON number is kept as the exact decimal [(-1)^neg * mant * 10^exp] of its
    literal; no rounding to a double is performed. *)
Record jsnum := JsNum { num_neg : bool; num_mant : N; num_exp : Z }.

#[warnings="-register-all"]
Inductive json :=
| JNull
| JBool (b : bool)
| JNum (n : jsnum)
| JStr (s : jsstr)
| JArr (items : list json)
| JObj (props : list (jsstr * json)).

(** Own properties of a plain object, in creation order, keys unique. *)
Fixpoint obj_get (k : jsstr) (props : list (jsstr * json)) : option json :=
  match props with
  | [] => None
  | (k', v) :: rest => if decide (k = k') then Some v else obj_get k rest
  end.

(** [CreateDataProperty]: a repeated key keeps its place and takes the new
    value. *)
Fixpoint obj_set (k : jsstr) (v : json) (props : list (jsstr * json))
  : list (jsstr * json) :=
  match props with
  | [] => [(k, v)]
  | (k', v') :: rest =>
      if decide (k = k') then (k', v) :: rest else (k', v') :: obj_set k v rest
  end.

(** The double nearest to a decimal is zero exactly when the decimal is at most
    2^-1075 in magnitude (half the least subnormal, ties to even). *)
Definition num_is_zero (n : jsnum) : bool :=
  (num_mant n =? 0) ||
  ((num_exp n <? 0)%Z && (num_mant n * 2 ^ 1075 <=? 10 ^ Z.to_N (- num_exp n))).

(** [ToBoolean] on the values [JSON.parse] can produce. *)
Definition truthy (v : json) : bool :=
  match v with
  | JNull => false
  | JBool b => b
  | JNum n => negb (num_is_zero n)
  | JStr s => match s with [] => false | _ => true end
  | JArr _ | JObj _ => true
  end.

(** ** JSON.stringify *)

Definition hex_digit (d : N) : N := if d <? 10 then 48 + d else 87 + d.

Definition hex4 (c : N) : jsstr :=
  [hex_digit (c / 4096 mod 16); hex_digit (c / 256 mod 16);
   hex_digit (c / 16 mod 16); hex_digit (c mod 16)].

(** [\uXXXX] *)
Definition uescape (c : N) : jsstr := [92; 117] ++ hex4 c.

Definition is_high (c : N) : bool := (55296 <=? c) && (c <=? 56319).
Definition is_low (c : N) : bool := (56320 <=? c) && (c <=? 57343).

(** One code unit that is not a surrogate, as [QuoteJSONString] writes it. *)
Definition escape_unit (c : N) : jsstr :=
  if c =? 8 then lit "\b"
  else if c =? 9 then lit "\t"
  else if c =? 10 then lit "\n"
  else if c =? 12 then lit "\f"
  else if c =? 13 then lit "\r"
  else if c =? 34 then [92; 34]
  else if c =? 92 then [92; 92]
  else if c <? 32 then uescape c
  else [c].

(** [QuoteJSONString] without the enclosing quotes: a surrogate pair is copied,
    a lone surrogate is escaped. *)
Fixpoint quote_body (s : jsstr) : jsstr :=
  match s with
  | [] => []
  | c :: r =>
      if is_high c then
        match r with
        | d :: r' =>
            if is_low d then c :: d :: quote_body r'
            else uescape c ++ quote_body r
        | [] => uescape c
        end
      else if is_low c then uescape c ++ quote_body r
      else escape_unit c ++ quote_body r
  end.

Definition quote (s : jsstr) : jsstr := [34] ++ quote_body s ++ [34].

Definition join (sep : jsstr) (parts : list jsstr) : jsstr :=
  match parts with
  | [] => []
  | p :: ps => p ++ flat_map (fun q => sep ++ q) ps
  end.

Section Stringify.
(** [Number::toString] on a double is not modelled; it is supplied. *)
Variable Number_toString : jsnum -> jsstr.

Fixpoint JSON_stringify (v : json) : jsstr :=
  match v with
  | JNull => lit "null"
  | JBool true => lit "true"
  | JBool false => lit "false"
  | JNum n => Number_toString n
  | JStr s => quote s
  | JArr items => lit "[" ++ join (lit ",") (map JSON_stringify items) ++ lit "]"
  | JObj props =>
      lit "{" ++
      join (lit ",")
        (map (fun kv => quote (fst kv) ++ lit ":" ++ JSON_stringify (snd kv)) props)
      ++ lit "}"
  end.
End Stringify.

(** ** JSON.parse *)

Definition is_ws (c : N) : bool :=
  (c =? 32) || (c =? 9) || (c =? 10) || (c =? 13).

Fixpoint skip_ws (s : jsstr) : jsstr :=
  match s with
  | c :: r => if is_ws c then skip_ws r else s
  | [] => []
  end.

Definition hex_val (c : N) : option N :=
  if (48 <=? c) && (c <=? 57) then Some (c - 48)
  else if (97 <=? c) && (c <=? 102) then Some (c - 87)
  else if (65 <=? c) && (c <=? 70) then Some (c - 55)
  else None.

Definition hex4_val (a b c d : N) : option N :=
  match hex_val a, hex_val b, hex_val c, hex_val d with
  | Some x, Some y, Some z, Some w => Some (x * 4096 + y * 256 + z * 16 + w)
  | _, _, _, _ => None
  end.

(** The character a single-letter escape stands for. *)
Definition unescape (e : N) : option N :=
  if e =? 34 then Some 34
  else if e =? 92 then Some 92
  else if e =? 47 then Some 47
  else if e =? 98 then Some 8
  else if e =? 102 then Some 12
  else if e =? 110 then Some 10
  else if e =? 114 then Some 13
  else if e =? 116 then Some 9
  else None.

(** The characters of a string literal after its opening quote, up to and
    including the closing quote. *)
Fixpoint parse_chars (s : jsstr) : option (jsstr * jsstr) :=
  match s with
  | [] => None
  | c :: r =>
      if c =? 34 then Some ([], r)
      else if c =? 92 then
        match r with
        | [] => None
        | e :: r' =>
            if e =? 117 then
              match r' with
              | h1 :: h2 :: h3 :: h4 :: r'' =>
                  match hex4_val h1 h2 h3 h4, parse_chars r'' with
                  | Some u, Some (t, rest) => Some (u :: t, rest)
                  | _, _ => None
                  end
              | _ => None
              end
            else
              match unescape e, parse_chars r' with
              | Some u, Some (t, rest) => Some (u :: t, rest)
              | _, _ => None
              end
        end
      else if c <? 32 then None
      else
        match parse_chars r with
        | Some (t, rest) => Some (c :: t, rest)
        | None => None
        end
  end.

Definition is_digit (c : N) : bool := (48 <=? c) && (c <=? 57).

(** A maximal run of decimal digits: its value continued from [acc], how many
    digits were read, and the rest. *)
Fixpoint parse_digits (s : jsstr) (acc : N) (cnt : nat) : N * nat * jsstr :=
  match s with
  | c :: r =>
      if is_digit c then parse_digits r (acc * 10 + (c - 48)) (S cnt)
      else (acc, cnt, s)
  | [] => (acc, cnt, [])
  end.

(** Integer part: a single [0], or a non-zero digit followed by digits. *)
Definition parse_int (s : jsstr) : option (N * jsstr) :=
  match s with
  | c :: r =>
      if c =? 48 then Some (0, r)
      else if is_digit c then
        let '(n, _, rest) := parse_digits r (c - 48) 1 in Some (n, rest)
      else None
  | [] => None
  end.

(** Optional fraction: the mantissa extended by the fraction digits and their
    count. *)
Definition parse_frac (m : N) (s : jsstr) : option (N * nat * jsstr) :=
  match s with
  | 46 :: r =>
      let '(n, cnt, rest) := parse_digits r m 0 in
      match cnt with O => None | _ => Some (n, cnt, rest) end
  | _ => Some (m, O, s)
  end.

Definition parse_exp_digits (neg : bool) (s : jsstr) : option (Z * jsstr) :=
  let '(n, cnt, rest) := parse_digits s 0 0 in
  match cnt with
  | O => None
  | _ => Some (if neg then (- Z.of_N n)%Z else Z.of_N n, rest)
  end.

Definition parse_exp (s : jsstr) : option (Z * jsstr) :=
  match s with
  | c :: r =>
      if (c =? 101) || (c =? 69) then
        match r with
        | 43 :: r' => parse_exp_digits false r'
        | 45 :: r' => parse_exp_digits true r'
        | _ => parse_exp_digits false r
        end
      else Some (0%Z, s)
  | [] => Some (0%Z, [])
  end.

Definition parse_number (s : jsstr) : option (jsnum * jsstr) :=
  let '(neg, s1) := match s with 45 :: r => (true, r) | _ => (false, s) end in
  match parse_int s1 with
  | None => None
  | Some (i, s2) =>
      match parse_frac i s2 with
      | None => None
      | Some (m, cnt, s3) =>
          match parse_exp s3 with
          | None => None
          | Some (e, s4) => Some (JsNum neg m (e - Z.of_nat cnt), s4)
          end
      end
  end.

(** [s] starts with the keyword [kw]: the rest after it. *)
Fixpoint strip_prefix (kw s : jsstr) : option jsstr :=
  match kw, s with
  | [], _ => Some s
  | k :: kw', c :: r => if k =? c then strip_prefix kw' r else None
  | _ :: _, [] => None
  end.

(** Recursive descent; each call on a nested value takes one unit of fuel.
    [parse_elements] and [parse_members] read the items after the opening
    bracket, items collected so far in [acc]. *)
Fixpoint parse_value (fuel : nat) (s : jsstr) : option (json * jsstr) :=
  match fuel with
  | O => None
  | S f =>
      match skip_ws s with
      | [] => None
      | c :: r =>
          if c =? 123 then
            match skip_ws r with
            | 125 :: r' => Some (JObj [], r')
            | _ => parse_members f r []
            end
          else if c =? 91 then
            match skip_ws r with
            | 93 :: r' => Some (JArr [], r')
            | _ => parse_elements f r []
            end
          else if c =? 34 then
            match parse_chars r with
            | Some (t, rest) => Some (JStr t, rest)
            | None => None
            end
          else if c =? 116 then
            match strip_prefix (lit "rue") r with
            | Some rest => Some (JBool true, rest)
            | None => None
            end
          else if c =? 102 then
            match strip_prefix (lit "alse") r with
            | Some rest => Some (JBool false, rest)
            | None => None
            end
          else if c =? 110 then
            match strip_prefix (lit "ull") r with
            | Some rest => Some (JNull, rest)
            | None => None
            end
          else
            match parse_number (c :: r) with
            | Some (n, rest) => Some (JNum n, rest)
            | None => None
            end
      end
  end
with parse_elements (fuel : nat) (s : jsstr) (acc : list json)
  : option (json * jsstr) :=
  match fuel with
  | O => None
  | S f =>
      match parse_value f s with
      | None => None
      | Some (v, r) =>
          match skip_ws r with
          | 44 :: r' => parse_elements f r' (acc ++ [v])
          | 93 :: r' => Some (JArr (acc ++ [v]), r')
          | _ => None
          end
      end
  end
with parse_members (fuel : nat) (s : jsstr) (acc : list (jsstr * json))
  : option (json * jsstr) :=
  match fuel with
  | O => None
  | S f =>
      match skip_ws s with
      | 34 :: r =>
          match parse_chars r with
          | None => None
          | Some (k, r1) =>
              match skip_ws r1 with
              | 58 :: r2 =>
                  match parse_value f r2 with
                  | None => None
                  | Some (v, r3) =>
                      match skip_ws r3 with
                      | 44 :: r4 => parse_members f r4 (obj_set k v acc)
                      | 125 :: r4 => Some (JObj (obj_set k v acc), r4)
                      | _ => None
                      end
                  end
              | _ => None
              end
          end
      | _ => None
      end
  end.

(** [JSON.parse]: [None] stands for the [SyntaxError] it throws. *)
Definition JSON_parse (s : jsstr) : option json :=
  match parse_value (2 * length s) s with
  | Some (v, rest) => match skip_ws rest with [] => Some v | _ => None end
  | None => None
  end.


(** ** Property access and conversion to string *)

(** [v.k] for a value [JSON.parse] produced: [None] in the outer option is the
    [TypeError] of reading a property of [null]; [Some None] is [undefined].
    Primitives and arrays have no property of the names used here; a plain
    object is looked up among its own properties ([Object.prototype] has none
    of these names). *)
Definition get_prop (v : json) (k : jsstr) : option (option json) :=
  match v with
  | JNull => None
  | JObj props => Some (obj_get k props)
  | _ => Some None
  end.

(** [x || d] where [x] may be [undefined]. *)
Definition or_else (x : option json) (d : json) : json :=
  match x with
  | Some v => if truthy v then v else d
  | None => d
  end.

Section ToString.
Variable Number_toString : jsnum -> jsstr.

(** [ToString]: [None] is the [TypeError] of an object whose own [toString]
    property shadows the callable one and so cannot be made primitive. Array
    elements [null] print as the empty string. *)
Fixpoint ToString (v : json) : option jsstr :=
  match v with
  | JNull => Some (lit "null")
  | JBool true => Some (lit "true")
  | JBool false => Some (lit "false")
  | JNum n => Some (Number_toString n)
  | JStr s => Some s
  | JArr items =>
      (fix elems (l : list json) : option (list jsstr) :=
         match l with
         | [] => Some []
         | x :: xs =>
             match (match x with JNull => Some [] | _ => ToString x end),
                   elems xs with
             | Some a, Some b => Some (a :: b)
             | _, _ => None
             end
         end) items
      ≫= fun parts => Some (join (lit ",") parts)
  | JObj props =>
      match obj_get (lit "toString") props with
      | Some _ => None
      | None => Some (lit "[object Object]")
      end
  end.
End ToString.

(** ** encodeURIComponent *)

Definition is_unreserved (c : N) : bool :=
  ((65 <=? c) && (c <=? 90)) || ((97 <=? c) && (c <=? 122)) || is_digit c ||
  (c =? 45) || (c =? 95) || (c =? 46) || (c =? 33) || (c =? 126) ||
  (c =? 42) || (c =? 39) || (c =? 40) || (c =? 41).

Definition HEX_digit (d : N) : N := if d <? 10 then 48 + d else 55 + d.

(** [%XX] *)
Definition pct (b : N) : jsstr := [37; HEX_digit (b / 16 mod 16); HEX_digit (b mod 16)].

(** The UTF-8 octets of a code point, each percent-encoded. *)
Definition pct_utf8 (cp : N) : jsstr :=
  if cp <? 128 then pct cp
  else if cp <? 2048 then pct (192 + cp / 64) ++ pct (128 + cp mod 64)
  else if cp <? 65536 then
    pct (224 + cp / 4096) ++ pct (128 + cp / 64 mod 64) ++ pct (128 + cp mod 64)
  else
    pct (240 + cp / 262144) ++ pct (128 + cp / 4096 mod 64) ++
    pct (128 + cp / 64 mod 64) ++ pct (128 + cp mod 64).

(** [None] is the [URIError] raised on a lone surrogate. *)
Fixpoint encodeURIComponent (s : jsstr) : option jsstr :=
  match s with
  | [] => Some []
  | c :: r =>
      if is_unreserved c then (c ::.) <$> encodeURIComponent r
      else if is_low c then None
      else if is_high c then
        match r with
        | d :: r' =>
            if is_low d then
              (pct_utf8 (65536 + (c - 55296) * 1024 + (d - 56320)) ++.)
                <$> encodeURIComponent r'
            else None
        | [] => None
        end
      else (pct_utf8 c ++.) <$> encodeURIComponent r
  end.

(** ** Date *)

(** A [Date] is its time value: milliseconds since the epoch, UTC. *)
Abbreviation Date := Z.

Local Open Scope Z_scope.

Definition ms_per_day : Z := 24 * 60 * 60 * 1000.

(** Proleptic Gregorian (year, month, day) of a day number counted from
    1970-01-01. *)
Definition civil_from_days (days : Z) : Z * Z * Z :=
  let z := days + 719468 in
  let era := z / 146097 in
  let doe := z - era * 146097 in
  let yoe := (doe - doe / 1460 + doe / 36524 - doe / 146096) / 365 in
  let doy := doe - (365 * yoe + yoe / 4 - yoe / 100) in
  let mp := (5 * doy + 2) / 153 in
  let d := doy - (153 * mp + 2) / 5 + 1 in
  let m := if mp <? 10 then mp + 3 else mp - 9 in
  let y := yoe + era * 400 + (if m <=? 2 then 1 else 0) in
  (y, m, d).

Definition iso_year (y : Z) : jsstr :=
  if (0 <=? y) && (y <=? 9999) then dec_fixed 4 (Z.to_N y)
  else (if y <? 0 then lit "-" else lit "+") ++ dec_fixed 6 (Z.abs_N y).

(** [Date.prototype.toISOString], which [JSON.stringify] uses for a [Date]
    through [toJSON]. *)
Definition toISOString (t : Date) : jsstr :=
  let '(y, m, d) := civil_from_days (t / ms_per_day) in
  let ms := t mod ms_per_day in
  iso_year y ++ lit "-" ++ dec_fixed 2 (Z.to_N m) ++ lit "-" ++
  dec_fixed 2 (Z.to_N d) ++ lit "T" ++
  dec_fixed 2 (Z.to_N (ms / 3600000)) ++ lit ":" ++
  dec_fixed 2 (Z.to_N (ms / 60000 mod 60)) ++ lit ":" ++
  dec_fixed 2 (Z.to_N (ms / 1000 mod 60)) ++ lit "." ++
  dec_fixed 3 (Z.to_N (ms mod 1000)) ++ lit "Z".

(** ** The environment: storage, clock, console, network *)

Inductive exn :=
| Error (message : jsstr)
| TypeError
| SyntaxError
| URIError
| QuotaExceededError.

(** What [fetch] is called with. Header values are the values the code puts in
    the header object, before [fetch] converts them. *)
Record Request := {
  req_url : jsstr;
  req_method : jsstr;
  req_headers : gmap jsstr json
}.

(** A response: its status and its body text ([None]: reading the body
    fails). *)
Record Response := { status : Z; body : option jsstr }.

(** [response.ok] *)
Definition ok (r : Response) : bool := (200 <=? status r) && (status r <=? 299).

(** What the program does not decide. *)
Record Runtime := {
  (** [import.meta.env.VITE_API_BASE_URL] *)
  VITE_API_BASE_URL : option jsstr;
  (** [Number::toString] *)
  Number_toString : jsnum -> jsstr;
  (** the wall clock at its n-th reading, in milliseconds *)
  clock : nat -> Z;
  (** the network: the requests already sent and the new one give either the
      exception [fetch] rejects with or a response *)
  network : list Request -> Request -> exn + Response;
  (** whether [setItem] of this key and value fits the storage quota *)
  quota : gmap jsstr jsstr -> jsstr -> jsstr -> bool
}.

Inductive level := Log | Err.

Record World := {
  storage : gmap jsstr jsstr;          (* localStorage *)
  reads : nat;                         (* clock readings taken so far *)
  requests : list Request;             (* fetch calls issued, latest last *)
  console : list (level * jsstr)       (* first argument of each console call *)
}.

Inductive Outcome (A : Type) :=
| Ok (a : A)
| Throw (e : exn).
Arguments Ok {A} a.
Arguments Throw {A} e.

Definition M (A : Type) : Type := World -> Outcome A * World.

#[global] Instance M_ret : MRet M := fun A a w => (Ok a, w).
#[global] Instance M_bind : MBind M := fun A B f m w =>
  match m w with
  | (Ok a, w') => f a w'
  | (Throw e, w') => (Throw e, w')
  end.

Definition throw {A} (e : exn) : M A := fun w => (Throw e, w).

(** [try { body } catch (error) { handler }] *)
Definition try_catch {A} (body : M A) (handler : exn -> M A) : M A := fun w =>
  match body w with
  | (Ok a, w') => (Ok a, w')
  | (Throw e, w') => handler e w'
  end.

(** A partial runtime operation, [None] raising [e]. *)
Definition or_throw {A} (e : exn) (o : option A) : M A :=
  match o with
  | Some a => mret a
  | None => throw e
  end.

(** [!s] for a string that may be [null]. *)
Definition absent (s : option jsstr) : bool :=
  match s with
  | Some (_ :: _) => false
  | _ => true
  end.

Definition localStorage_getItem (k : jsstr) : M (option jsstr) := fun w =>
  (Ok (storage w !! k), w).

Definition localStorage_removeItem (k : jsstr) : M unit := fun w =>
  (Ok tt, {| storage := delete k (storage w); reads := reads w;
             requests := requests w; console := console w |}).

Definition console_log (msg : jsstr) : M unit := fun w =>
  (Ok tt, {| storage := storage w; reads := reads w; requests := requests w;
             console := console w ++ [(Log, msg)] |}).

Definition console_error (msg : jsstr) : M unit := fun w =>
  (Ok tt, {| storage := storage w; reads := reads w; requests := requests w;
             console := console w ++ [(Err, msg)] |}).

(** [response.text()] *)
Definition text (r : Response) : M jsstr := or_throw TypeError (body r).

(** [response.json()] *)
Definition json_body (r : Response) : M json :=
  t ← text r; or_throw SyntaxError (JSON_parse t).

(** [v.k] *)
Definition prop (v : json) (k : jsstr) : M (option json) :=
  or_throw TypeError (get_prop v k).

(** ** Result shapes *)

Module User.
Record t := mk {
  id : jsstr;
  phoneNumber : jsstr;
  createdAt : Date;
  lastActive : Date;
  verified : bool
}.

(** The value [JSON.stringify] serialises: the properties in creation order,
    each [Date] through [toJSON]. *)
Definition to_json (u : t) : json :=
  JObj [ (lit "id", JStr (id u));
         (lit "phoneNumber", JStr (phoneNumber u));
         (lit "createdAt", JStr (toISOString (createdAt u)));
         (lit "lastActive", JStr (toISOString (lastActive u)));
         (lit "verified", JBool (verified u)) ].
End User.

Module LoginResult.
Record t := mk { success : bool; user : User.t }.
End LoginResult.

Module ExerciseLog.
Record t := mk {
  id : jsstr; date : Date; duration : Z; type : jsstr; distance : jsstr
}.
End ExerciseLog.

Module FoodLog.
Record t := mk { id : jsstr; date : Date; foodItems : jsstr }.
End FoodLog.

Module Message.
(** [processed_data.exercise], [processed_data.food] and [processed_data]. *)
Record exercise_data := mk_exercise {
  ex_duration : Z; ex_type : jsstr; ex_distance : jsstr
}.
Record food_data := mk_food { description : jsstr }.
Record pdata := mk_pdata {
  exercise : option exercise_data;
  food : option food_data
}.
Record t := mk {
  id : jsstr;
  content : jsstr;
  timestamp : Date;
  type : jsstr;
  channel : jsstr;
  processed : bool;
  category : option jsstr;
  processed_data : option pdata
}.
End Message.

Module HealthData.
Record t := mk {
  exerciseLogs : list ExerciseLog.t;
  foodLogs : list FoodLog.t
}.
End HealthData.

(** What [getHealthData] resolves to: an envelope it builds itself, or the
    parsed body of the response, whatever that is. *)
Inductive HealthDataReturn :=
| Envelope (success : bool) (data : HealthData.t)
| Body (b : json).

(** [ApiResponse<Message[]>] as [getMessages] fills it: [data] and [error] hold
    whatever the response body held ([None]: absent or [undefined]). *)
Module ApiResponse.
Record t := mk { success : bool; data : option json; error : option json }.
End ApiResponse.

Module TestResult.
Record t := mk { success : bool; message : option jsstr; error : option exn }.
End TestResult.

(** ** src/lib/api.ts *)

Section Api.
Context (rt : Runtime).

(** [Date.now()] and the time value of [new Date()]: one reading of the
    clock. *)
Definition Date_now : M Date := fun w =>
  (Ok (clock rt (reads w)),
   {| storage := storage w; reads := S (reads w); requests := requests w;
      console := console w |}).

Definition localStorage_setItem (k v : jsstr) : M unit := fun w =>
  if quota rt (storage w) k v then
    (Ok tt, {| storage := <[k := v]> (storage w); reads := reads w;
               requests := requests w; console := console w |})
  else (Throw QuotaExceededError, w).

Definition fetch (rq : Request) : M Response := fun w =>
  let w' := {| storage := storage w; reads := reads w;
               requests := requests w ++ [rq]; console := console w |} in
  match network rt (requests w) rq with
  | inl e => (Throw e, w')
  | inr r => (Ok r, w')
  end.

(** [encodeURIComponent(v)]: [ToString], then the encoding. *)
Definition encodeURIComponent_of (v : json) : M jsstr :=
  s ← or_throw TypeError (ToString (Number_toString rt) v);
  or_throw URIError (encodeURIComponent s).

Definition API_BASE_URL : jsstr :=
  match VITE_API_BASE_URL rt with
  | Some (c :: s) => c :: s
  | _ => lit "http://localhost:3000/api"
  end.

Definition getToken : M (option jsstr) :=
  localStorage_getItem (lit "healthBuddieToken").

Definition getPhoneNumber : M json :=
  try_catch
    (userJson ← localStorage_getItem (lit "healthBuddieUser");
     match userJson with
     | Some (c :: s) =>
         user ← or_throw SyntaxError (JSON_parse (c :: s));
         p ← prop user (lit "phoneNumber");
         mret (or_else p JNull)
     | _ => mret JNull
     end)
    (fun error =>
       console_error (lit "Error getting phone number:");;
       mret JNull).

Definition getHeaders : M (gmap jsstr json) :=
  token ← getToken;
  phoneNumber ← getPhoneNumber;
  console_log (lit "Creating headers with phone number:");;
  let headers : gmap jsstr json :=
    {[ lit "Content-Type" := JStr (lit "application/json") ]} in
  let headers :=
    if truthy phoneNumber
    then <[ lit "X-Phone-Number" := phoneNumber ]> headers
    else headers in
  let headers :=
    match token with
    | Some (c :: s) =>
        <[ lit "Authorization" := JStr (lit "Bearer " ++ c :: s) ]> headers
    | _ => headers
    end in
  console_log (lit "Final headers:");;
  mret headers.

Definition login (phoneNumber : jsstr) : M LoginResult.t :=
  try_catch
    (console_log (lit "Logging in with phone number:");;
     now ← Date_now;
     created ← Date_now;
     active ← Date_now;
     let user :=
       {| User.id := lit "user-" ++ dec_Z now;
          User.phoneNumber := phoneNumber;
          User.createdAt := created;
          User.lastActive := active;
          User.verified := true |} in
     localStorage_setItem (lit "healthBuddieUser")
       (JSON_stringify (Number_toString rt) (User.to_json user));;
     now' ← Date_now;
     localStorage_setItem (lit "healthBuddieToken")
       (lit "demo-token-" ++ dec_Z now');;
     console_log (lit "User saved to localStorage:");;
     mret {| LoginResult.success := true; LoginResult.user := user |})
    (fun error =>
       console_error (lit "Login error:");;
       throw error).

Definition logout : M unit :=
  localStorage_removeItem (lit "healthBuddieToken");;
  localStorage_removeItem (lit "healthBuddieUser").

(** [!!getToken() && !!getPhoneNumber()]: the right operand runs only when
    the left is true. *)
Definition isAuthenticated : M bool :=
  token ← getToken;
  if absent token then mret false
  else (phoneNumber ← getPhoneNumber; mret (truthy phoneNumber)).

Definition getMockExerciseLogs : M (list ExerciseLog.t) :=
  today ← Date_now;
  mret [ {| ExerciseLog.id := lit "ex1";
            ExerciseLog.date := today - 1 * 24 * 60 * 60 * 1000;
            ExerciseLog.duration := 30;
            ExerciseLog.type := lit "running";
            ExerciseLog.distance := lit "3 miles" |};
         {| ExerciseLog.id := lit "ex2";
            ExerciseLog.date := today - 2 * 24 * 60 * 60 * 1000;
            ExerciseLog.duration := 45;
            ExerciseLog.type := lit "cycling";
            ExerciseLog.distance := lit "10 miles" |};
         {| ExerciseLog.id := lit "ex3";
            ExerciseLog.date := today - 4 * 24 * 60 * 60 * 1000;
            ExerciseLog.duration := 60;
            ExerciseLog.type := lit "yoga";
            ExerciseLog.distance := lit "" |} ].

Definition getMockFoodLogs : M (list FoodLog.t) :=
  today ← Date_now;
  mret [ {| FoodLog.id := lit "food1";
            FoodLog.date := today - 1 * 24 * 60 * 60 * 1000;
            FoodLog.foodItems := lit "Salad with grilled chicken" |};
         {| FoodLog.id := lit "food2";
            FoodLog.date := today - 2 * 24 * 60 * 60 * 1000;
            FoodLog.foodItems := lit "Oatmeal with berries and honey" |};
         {| FoodLog.id := lit "food3";
            FoodLog.date := today - 3 * 24 * 60 * 60 * 1000;
            FoodLog.foodItems := lit "Pasta with tomato sauce" |} ].

Definition getMockMessages : M (list Message.t) :=
  today ← Date_now;
  mret [ {| Message.id := lit "msg1";
            Message.content := lit "I ran for 30 minutes today";
            Message.timestamp := today - 1 * 24 * 60 * 60 * 1000;
            Message.type := lit "incoming";
            Message.channel := lit "whatsapp";
            Message.processed := true;
            Message.category := Some (lit "exercise");
            Message.processed_data :=
              Some {| Message.exercise :=
                        Some {| Message.ex_duration := 30;
                                Message.ex_type := lit "running";
                                Message.ex_distance := lit "3 miles" |};
                      Message.food := None |} |};
         {| Message.id := lit "msg2";
            Message.content := lit "Had a salad with grilled chicken for lunch";
            Message.timestamp := today - 2 * 24 * 60 * 60 * 1000;
            Message.type := lit "incoming";
            Message.channel := lit "whatsapp";
            Message.processed := true;
            Message.category := Some (lit "food");
            Message.processed_data :=
              Some {| Message.exercise := None;
                      Message.food :=
                        Some {| Message.description :=
                                  lit "Salad with grilled chicken" |} |} |};
         {| Message.id := lit "msg3";
            Message.content := lit "status";
            Message.timestamp := today - 3 * 24 * 60 * 60 * 1000;
            Message.type := lit "incoming";
            Message.channel := lit "whatsapp";
            Message.processed := true;
            Message.category := None;
            Message.processed_data := None |} ].

(** [days] is an integral number of days (default 7). *)
Definition getHealthData (days : option Z) : M HealthDataReturn :=
  let days := default 7 days in
  try_catch
    (phoneNumber ← getPhoneNumber;
     if negb (truthy phoneNumber) then
       console_error (lit "No phone number available for API request");;
       exerciseLogs ← getMockExerciseLogs;
       foodLogs ← getMockFoodLogs;
       mret (Envelope true
               {| HealthData.exerciseLogs := exerciseLogs;
                  HealthData.foodLogs := foodLogs |})
     else
       enc ← encodeURIComponent_of phoneNumber;
       let url := API_BASE_URL ++ lit "/health-data?days=" ++ dec_Z days ++
                  lit "&phoneNumber=" ++ enc in
       console_log (lit "Making API request to:");;
       headers ← getHeaders;
       response ← fetch {| req_url := url; req_method := lit "GET";
                           req_headers := headers |};
       if negb (ok response) then
         errorText ← text response;
         console_error (lit "API Error Response:");;
         throw (Error (match errorText with
                       | [] => lit "Failed to get health data"
                       | _ => errorText
                       end))
       else (b ← json_body response; mret (Body b)))
    (fun error =>
       console_error (lit "Error fetching health data:");;
       exerciseLogs ← getMockExerciseLogs;
       foodLogs ← getMockFoodLogs;
       mret (Envelope true
               {| HealthData.exerciseLogs := exerciseLogs;
                  HealthData.foodLogs := foodLogs |})).

Definition getMessages : M ApiResponse.t :=
  try_catch
    (phoneNumber ← localStorage_getItem (lit "phoneNumber");
     match phoneNumber with
     | Some (c :: s) =>
         enc ← or_throw URIError (encodeURIComponent (c :: s));
         let url := API_BASE_URL ++ lit "/api/messages?phoneNumber=" ++ enc in
         token ← localStorage_getItem (lit "token");
         headers ←
           (if absent token then
              mret ({[ lit "Content-Type" := JStr (lit "application/json") ]}
                      : gmap jsstr json)
            else
              token' ← localStorage_getItem (lit "token");
              mret (<[ lit "Authorization" :=
                         JStr (lit "Bearer " ++ default (lit "null") token') ]>
                      {[ lit "Content-Type" := JStr (lit "application/json") ]}));
         response ← fetch {| req_url := url; req_method := lit "GET";
                             req_headers := headers |};
         if negb (ok response) then
           errorData ← json_body response;
           console_error (lit "Error getting messages:");;
           e ← prop errorData (lit "error");
           mret {| ApiResponse.success := false;
                   ApiResponse.data := None;
                   ApiResponse.error :=
                     Some (or_else e (JStr (lit "Failed to get messages"))) |}
         else
           data ← json_body response;
           messages ← prop data (lit "messages");
           mret {| ApiResponse.success := true;
                   ApiResponse.data := messages;
                   ApiResponse.error := None |}
     | _ =>
         console_error (lit "No phone number found in localStorage");;
         mret {| ApiResponse.success := false;
                 ApiResponse.data := None;
                 ApiResponse.error := Some (JStr (lit "No phone number found")) |}
     end)
    (fun error =>
       console_error (lit "Error getting messages:");;
       mret {| ApiResponse.success := false;
               ApiResponse.data := None;
               ApiResponse.error := Some (JStr (lit "Failed to get messages")) |}).

Definition testApiConnection : M TestResult.t :=
  try_catch
    (phoneNumber ← getPhoneNumber;
     if negb (truthy phoneNumber) then
       console_error (lit "No phone number available for API test");;
       mret {| TestResult.success := false;
               TestResult.message := None;
               TestResult.error :=
                 Some (Error (lit "No phone number available. Please log in again.")) |}
     else
       headers ← getHeaders;
       console_log (lit "Testing API connection with headers:");;
       enc ← encodeURIComponent_of phoneNumber;
       response ← fetch {| req_url := API_BASE_URL ++
                                        lit "/messages?phoneNumber=" ++ enc;
                           req_method := lit "GET";
                           req_headers := headers |};
       if negb (ok response) then
         errorData ←
           try_catch (json_body response)
             (fun _ =>
                mret (JObj [ (lit "error",
                              JStr (lit "HTTP error! status: " ++
                                    dec_Z (status response))) ]));
         console_error (lit "API test failed:");;
         e ← prop errorData (lit "error");
         msg ← or_throw TypeError
                 (ToString (Number_toString rt)
                    (or_else e (JStr (lit "API is not reachable"))));
         throw (Error msg)
       else
         mret {| TestResult.success := true;
                 TestResult.message := Some (lit "API is reachable");
                 TestResult.error := None |})
    (fun error =>
       console_error (lit "API connection test failed:");;
       mret {| TestResult.success := false;
               TestResult.message := None;
               TestResult.error := Some error |}).
End Api.

(** * Vocabulary of the statements *)

(** What [getPhoneNumber] returns, as a function of the stored profile. *)
Definition stored_identity (profile : option jsstr) : json :=
  match profile with
  | Some (c :: s) =>
      match JSON_parse (c :: s) with
      | Some u =>
          match get_prop u (lit "phoneNumber") with
          | Some p => or_else p JNull
          | None => JNull
          end
      | None => JNull
      end
  | _ => JNull
  end.

(** The instant [k] days before [today]. *)
Definition days_before (today : Date) (k : Z) : Date := today - k * ms_per_day.

(** Most recent first. *)
Fixpoint nonincreasing (l : list Z) : bool :=
  match l with
  | a :: (b :: _) as rest => (b <=? a) && nonincreasing rest
  | _ => true
  end.

(** The profile [login] builds in state [w]. *)
Definition login_user (rt : Runtime) (P : jsstr) (w : World) : User.t :=
  {| User.id := lit "user-" ++ dec_Z (clock rt (reads w));
     User.phoneNumber := P;
     User.createdAt := clock rt (S (reads w));
     User.lastActive := clock rt (S (S (reads w)));
     User.verified := true |}.

(** The fallback object [getHealthData] builds at both of its exits. *)
Definition mock_envelope (rt : Runtime) : M HealthDataReturn :=
  exerciseLogs ← getMockExerciseLogs rt;
  foodLogs ← getMockFoodLogs rt;
  mret (Envelope true
          {| HealthData.exerciseLogs := exerciseLogs;
             HealthData.foodLogs := foodLogs |}).

(** An envelope [{ success: true, data }] whose logs are what the two mock
    generators return. *)
Definition mock_fallback (rt : Runtime) (r : HealthDataReturn) : Prop :=
  exists w1 w2 ex fo,
    (getMockExerciseLogs rt w1).1 = Ok ex /\
    (getMockFoodLogs rt w2).1 = Ok fo /\
    r = Envelope true {| HealthData.exerciseLogs := ex; HealthData.foodLogs := fo |}.

(** An object whose [success] is [false]. *)
Definition failure_envelope (r : HealthDataReturn) : bool :=
  match r with
  | Envelope s _ => negb s
  | Body b =>
      match get_prop b (lit "success") with
      | Some (Some (JBool false)) => true
      | _ => false
      end
  end.

(** The failure envelope [getMessages] builds with message [msg]. *)
Definition messages_failure (msg : json) : ApiResponse.t :=
  {| ApiResponse.success := false; ApiResponse.data := None;
     ApiResponse.error := Some msg |}.

(** What [parse_chars] does with one decoded unit [u] followed by [t]. *)
Definition cons_unit (u : N) (o : option (jsstr * jsstr)) : option (jsstr * jsstr) :=
  match o with
  | Some (t, rest) => Some (u :: t, rest)
  | None => None
  end.

(** ** Sample environments *)

(** Nothing stored, nothing read, nothing sent. *)
Definition fresh_world : World :=
  {| storage := ∅; reads := 0; requests := []; console := [] |}.

(** A runtime whose network answers every request with status [st] and body
    [txt], whose clock starts at 2023-11-14T22:13:20Z and advances by one
    millisecond a reading, and whose storage never fills up. No sample prints a
    number; [Number_toString] gives the digits of the mantissa. *)
Definition service (st : Z) (txt : jsstr) : Runtime :=
  {| VITE_API_BASE_URL := None;
     Number_toString := fun n => dec_N (num_mant n);
     clock := fun n => 1700000000000 + Z.of_nat n;
     network := fun _ _ => inr {| status := st; body := Some txt |};
     quota := fun _ _ _ => true |}.

(** The same runtime with the network down: [fetch] rejects. *)
Definition offline : Runtime :=
  {| VITE_API_BASE_URL := None;
     Number_toString := fun n => dec_N (num_mant n);
     clock := fun n => 1700000000000 + Z.of_nat n;
     network := fun _ _ => inl TypeError;
     quota := fun _ _ _ => true |}.

(** The state after [login("15551234567")] on a fresh browser. *)
Definition logged_in : World :=
  (login (service 200 []) (lit "15551234567") fresh_world).2.

(** [{"success":false}] *)
Definition refusal : jsstr := lit "{" ++ quote (lit "success") ++ lit ":false}".

(** [{"messages":["hi"]}] *)
Definition inbox : jsstr :=
  lit "{" ++ quote (lit "messages") ++ lit ":[" ++ quote (lit "hi") ++ lit "]}".

(** A browser holding only a plain phone number. *)
Definition plain_phone (p : jsstr) : World :=
  {| storage := {[ lit "phoneNumber" := p ]}; reads := 0; requests := [];
     console := [] |}.

(** A browser whose stored profile is not JSON. *)
Definition broken_profile : World :=
  {| storage := {[ lit "healthBuddieUser" := lit "{oops";
                   lit "healthBuddieToken" := lit "demo-token-1" ]};
     reads := 0; requests := []; console := [] |}.

(** ** Vocabulary of the further properties *)

(** The envelope [{ success: true, data }] whose exercise logs are generated
    at clock reading number [n] and whose food logs at the next one. *)
Definition mock_fallback_at (rt : Runtime) (n : nat) (r : HealthDataReturn) : Prop :=
  exists wa wb ex fo,
    reads wa = n /\ reads wb = S n /\
    (getMockExerciseLogs rt wa).1 = Ok ex /\
    (getMockFoodLogs rt wb).1 = Ok fo /\
    r = Envelope true {| HealthData.exerciseLogs := ex; HealthData.foodLogs := fo |}.

(** The identity as it goes into a URL: [None] when there is none or when it
    cannot be converted and encoded. *)
Definition encoded_identity (rt : Runtime) (w : World) : option jsstr :=
  let I := stored_identity (storage w !! lit "healthBuddieUser") in
  if truthy I then ToString (Number_toString rt) I ≫= encodeURIComponent else None.

(** The header object [getMessages] builds, given the value under [token]. *)
Definition messages_headers (token : option jsstr) : gmap jsstr json :=
  match token with
  | Some (c :: s) =>
      <[ lit "Authorization" := JStr (lit "Bearer " ++ c :: s) ]>
        {[ lit "Content-Type" := JStr (lit "application/json") ]}
  | _ => {[ lit "Content-Type" := JStr (lit "application/json") ]}
  end.

(** The envelope [{ success: false, error }] of [testApiConnection]. *)
Definition test_failure (e : exn) : TestResult.t :=
  {| TestResult.success := false; TestResult.message := None;
     TestResult.error := Some e |}.

(** Whether reading the identity out of the stored profile raises: the text
    is not JSON, or is the JSON [null]. *)
Definition profile_raises (profile : option jsstr) : bool :=
  match profile with
  | Some (c :: s) =>
      match JSON_parse (c :: s) with
      | None | Some JNull => true
      | Some _ => false
      end
  | _ => false
  end.

(** A browser holding the given profile text and a token. *)
Definition with_profile (txt : jsstr) : World :=
  {| storage := {[ lit "healthBuddieUser" := txt;
                   lit "healthBuddieToken" := lit "demo-token-1" ]};
     reads := 0; requests := []; console := [] |}.

(** The JSON text of a profile that has only a [phoneNumber]. *)
Definition profile_of (phone : json) : jsstr :=
  JSON_stringify (fun n => dec_N (num_mant n)) (JObj [(lit "phoneNumber", phone)]).

(** The profile text [login] writes in state [w]. *)
Definition login_text (rt : Runtime) (P : jsstr) (w : World) : jsstr :=
  JSON_stringify (Number_toString rt) (User.to_json (login_user rt P w)).

(** The token [login] writes in state [w]. *)
Definition login_token (rt : Runtime) (w : World) : jsstr :=
  lit "demo-token-" ++ dec_Z (clock rt (S (S (S (reads w))))).

(** A runtime whose storage is full: every [setItem] is refused. *)
Definition full_storage : Runtime :=
  {| VITE_API_BASE_URL := None;
     Number_toString := fun n => dec_N (num_mant n);
     clock := fun n => 1700000000000 + Z.of_nat n;
     network := fun _ _ => inl TypeError;
     quota := fun _ _ _ => false |}.

(** A runtime whose storage has room for the profile but not for the token. *)
Definition tight_storage : Runtime :=
  {| VITE_API_BASE_URL := None;
     Number_toString := fun n => dec_N (num_mant n);
     clock := fun n => 1700000000000 + Z.of_nat n;
     network := fun _ _ => inl TypeError;
     quota := fun _ k _ => bool_decide (k = lit "healthBuddieUser") |}.

(** [{"error":"No such user"}] *)
Definition complaint : jsstr :=
  lit "{" ++ quote (lit "error") ++ lit ":" ++ quote (lit "No such user") ++ lit "}".

(** A browser holding a plain phone number and a plain token. *)
Definition plain_session (p t : jsstr) : World :=
  {| storage := {[ lit "phoneNumber" := p; lit "token" := t ]};
     reads := 0; requests := []; console := [] |}.

(** * Properties *)

(** ** The runtime at sample inputs *)

Example toISOString_epoch : toISOString 0 = lit "1970-01-01T00:00:00.000Z".
Proof. reflexivity. Qed.

Example toISOString_2023 :
  toISOString 1700000000000 = lit "2023-11-14T22:13:20.000Z".
Proof. reflexivity. Qed.

Example toISOString_leap_day :
  toISOString 951782400000 = lit "2000-02-29T00:00:00.000Z".
Proof. reflexivity. Qed.

Example toISOString_before_epoch :
  toISOString (-1) = lit "1969-12-31T23:59:59.999Z".
Proof. reflexivity. Qed.

Example encodeURIComponent_phone :
  encodeURIComponent (lit "+1 (555) 123-4567") =
  Some (lit "%2B1%20(555)%20123-4567").
Proof. reflexivity. Qed.

Example encodeURIComponent_euro :
  encodeURIComponent [8364%N] = Some (lit "%E2%82%AC").
Proof. reflexivity. Qed.

Example encodeURIComponent_lone_surrogate : encodeURIComponent [55296%N] = None.
Proof. reflexivity. Qed.

Example JSON_parse_numbers :
  JSON_parse (lit " [1, 2.5e3, -0] ") =
  Some (JArr [ JNum (JsNum false 1 0); JNum (JsNum false 25 2);
               JNum (JsNum true 0 0) ]).
Proof. reflexivity. Qed.

Example JSON_parse_leading_zero : JSON_parse (lit "01") = None.
Proof. reflexivity. Qed.

Example JSON_parse_trailing_comma : JSON_parse (lit "[1,]") = None.
Proof. reflexivity. Qed.

Example JSON_parse_repeated_key :
  JSON_parse (lit "{" ++ quote (lit "a") ++ lit ":1," ++ quote (lit "b") ++
              lit ":null," ++ quote (lit "a") ++ lit ":true}") =
  Some (JObj [ (lit "a", JBool true); (lit "b", JNull) ]).
Proof. reflexivity. Qed.

Example JSON_parse_escapes :
  JSON_parse ([34%N] ++ lit "a\n\u00e9\/" ++ [34%N]) =
  Some (JStr [97%N; 10%N; 233%N; 47%N]).
Proof. reflexivity. Qed.

Example quote_control_and_surrogates :
  quote [34%N; 10%N; 1%N; 55357%N; 56832%N; 55357%N] =
  [34%N; 92%N; 34%N] ++ lit "\n\u0001" ++ [55357%N; 56832%N] ++
  lit "\ud83d" ++ [34%N].
Proof. reflexivity. Qed.

Example underflow_is_falsy :
  truthy (JNum (JsNum false 1 (-400))) = false /\
  truthy (JNum (JsNum false 1 (-300))) = true.
Proof. by vm_compute. Qed.

(** ** The runtime: JSON.parse after JSON.stringify *)

Section QuoteRoundTrip.
Local Open Scope N_scope.

Lemma parse_chars_plain c t :
  c <> 34 -> c <> 92 -> 32 <= c ->
  parse_chars (c :: t) = cons_unit c (parse_chars t).
Proof.
  intros H1 H2 H3. cbn [parse_chars].
  apply N.eqb_neq in H1 as ->. apply N.eqb_neq in H2 as ->.
  assert ((c <? 32) = false) as -> by (apply N.ltb_ge; lia).
  reflexivity.
Qed.

Lemma parse_chars_escape e u t :
  e <> 117 -> unescape e = Some u ->
  parse_chars (92 :: e :: t) = cons_unit u (parse_chars t).
Proof.
  intros H1 H2. cbn [parse_chars].
  change (92 =? 34) with false. change (92 =? 92) with true. cbv iota.
  apply N.eqb_neq in H1 as ->. rewrite H2. reflexivity.
Qed.

Lemma hex_val_digit d : d < 16 -> hex_val (hex_digit d) = Some d.
Proof.
  intros Hd. unfold hex_digit, hex_val.
  destruct (N.ltb_spec d 10).
  - assert ((48 <=? 48 + d) && (48 + d <=? 57) = true) as ->.
    { apply andb_true_iff. rewrite !N.leb_le. lia. }
    f_equal. lia.
  - assert ((48 <=? 87 + d) && (87 + d <=? 57) = false) as ->.
    { apply andb_false_iff. right. apply N.leb_gt. lia. }
    assert ((97 <=? 87 + d) && (87 + d <=? 102) = true) as ->.
    { apply andb_true_iff. rewrite !N.leb_le. lia. }
    f_equal. lia.
Qed.

Lemma hex4_val_hex4 c :
  c < 65536 ->
  hex4_val (hex_digit (c / 4096 mod 16)) (hex_digit (c / 256 mod 16))
           (hex_digit (c / 16 mod 16)) (hex_digit (c mod 16)) = Some c.
Proof.
  intros Hc. unfold hex4_val.
  rewrite !hex_val_digit by (apply N.mod_lt; lia).
  f_equal. zify. Z.to_euclidean_division_equations. lia.
Qed.

Lemma parse_chars_uescape c t :
  c < 65536 ->
  parse_chars (uescape c ++ t) = cons_unit c (parse_chars t).
Proof.
  intros Hc. unfold uescape, hex4. cbn [app parse_chars].
  change (92 =? 34) with false. change (92 =? 92) with true.
  change (117 =? 117) with true. cbv iota.
  rewrite hex4_val_hex4 by done. reflexivity.
Qed.

Lemma parse_chars_escape_unit c t :
  parse_chars (escape_unit c ++ t) = cons_unit c (parse_chars t).
Proof.
  unfold escape_unit.
  repeat match goal with
         | |- context [c =? ?k] =>
             destruct (N.eqb_spec c k) as [-> |];
             [by apply (parse_chars_escape _ _ t) |]
         end.
  destruct (N.ltb_spec c 32).
  - apply parse_chars_uescape. lia.
  - by apply parse_chars_plain.
Qed.

Lemma is_surrogate_bounds c :
  is_high c || is_low c = true -> 32 <= c < 65536 /\ c <> 34 /\ c <> 92.
Proof.
  unfold is_high, is_low.
  rewrite orb_true_iff, !andb_true_iff, !N.leb_le. lia.
Qed.

(** A quoted string is read back as it was, whatever follows the closing
    quote. *)
Lemma parse_chars_quote_body s rest :
  parse_chars (quote_body s ++ 34 :: rest) = Some (s, rest).
Proof.
  remember (length s) as n eqn:Hn.
  revert s Hn. induction n as [n IH] using lt_wf_ind. intros s Hn.
  destruct s as [| c r]; [reflexivity |].
  cbn [quote_body].
  destruct (is_high c) eqn:Hh.
  - pose proof (is_surrogate_bounds c) as Hc. rewrite Hh in Hc.
    destruct Hc as (Hc1 & Hc2 & Hc3); [done |].
    destruct r as [| d r'].
    + rewrite parse_chars_uescape by lia. reflexivity.
    + destruct (is_low d) eqn:Hl.
      * pose proof (is_surrogate_bounds d) as Hd. rewrite Hl, orb_true_r in Hd.
        destruct Hd as (Hd1 & Hd2 & Hd3); [done |].
        cbn [app]. rewrite parse_chars_plain by lia.
        rewrite parse_chars_plain by lia.
        rewrite (IH (length r')) by (simpl in Hn; first [lia | done]).
        reflexivity.
      * rewrite <- app_assoc, parse_chars_uescape by lia.
        rewrite (IH (length (d :: r'))) by (simpl in *; first [lia | done]).
        reflexivity.
  - destruct (is_low c) eqn:Hl.
    + pose proof (is_surrogate_bounds c) as Hc. rewrite Hl, orb_true_r in Hc.
      destruct Hc as (Hc1 & Hc2 & Hc3); [done |].
      rewrite <- app_assoc, parse_chars_uescape by lia.
      rewrite (IH (length r)) by (simpl in *; first [lia | done]).
      reflexivity.
    + rewrite <- app_assoc, parse_chars_escape_unit.
      rewrite (IH (length r)) by (simpl in *; first [lia | done]).
      reflexivity.
Qed.
End QuoteRoundTrip.

(** More fuel never changes a result. *)
Lemma parse_fuel_mono (f : nat) :
  (forall s r, parse_value f s = Some r ->
               forall f', (f <= f')%nat -> parse_value f' s = Some r) /\
  (forall s acc r, parse_elements f s acc = Some r ->
               forall f', (f <= f')%nat -> parse_elements f' s acc = Some r) /\
  (forall s acc r, parse_members f s acc = Some r ->
               forall f', (f <= f')%nat -> parse_members f' s acc = Some r).
Proof.
  induction f as [| f (IHv & IHe & IHm)]; [by repeat split |].
  repeat split; intros s; intros until 1; intros [| f'] Hf; try lia;
    assert (f <= f')%nat as Hf' by lia;
    cbn [parse_value parse_elements parse_members] in *;
    repeat match goal with
      | H : match parse_value f ?x with _ => _ end = Some _ |- _ =>
          let E := fresh "E" in
          destruct (parse_value f x) as [[? ?] |] eqn:E; [| discriminate];
          rewrite (IHv _ _ E f' Hf')
      | H : match ?x with _ => _ end = Some _ |- _ =>
          destruct x eqn:?; try discriminate
      end; eauto.
Qed.

(** ** The runtime: the fuel of JSON.parse *)

Section ParseFuel.
Local Open Scope nat_scope.

(** Case analysis on a code unit down to where a literal pattern is decided. *)
Ltac case_unit c :=
destruct c as [| c]; [try done | repeat (destruct c as [c | c |]; try done)].

Lemma skip_ws_length s : (length (skip_ws s) <= length s)%nat.
Proof.
induction s as [| c r IH]; simpl; [lia |].
destruct (is_ws c); simpl; lia.
Qed.

Lemma parse_chars_length s : forall t r,
parse_chars s = Some (t, r) -> (length r < length s)%nat.
Proof.
remember (length s) as n eqn:Hn. revert s Hn.
induction n as [n IH] using lt_wf_ind. intros s Hn t r.
destruct s as [| c s]; [done |]. cbn [parse_chars].
destruct (c =? 34)%N; [intros [= <- <-]; simpl in *; lia |].
destruct (c =? 92)%N.
- destruct s as [| e s]; [done |].
  destruct (e =? 117)%N.
  + destruct s as [| h1 [| h2 [| h3 [| h4 s]]]]; try done.
    destruct (hex4_val h1 h2 h3 h4); [| done].
    destruct (parse_chars s) as [[t' r'] |] eqn:E; [| done].
    intros [= <- <-]. apply (IH (length s)) in E; simpl in *; lia.
  + destruct (unescape e); [| done].
    destruct (parse_chars s) as [[t' r'] |] eqn:E; [| done].
    intros [= <- <-]. apply (IH (length s)) in E; simpl in *; lia.
- destruct (c <? 32)%N; [done |].
  destruct (parse_chars s) as [[t' r'] |] eqn:E; [| done].
  intros [= <- <-]. apply (IH (length s)) in E; simpl in *; lia.
Qed.

Lemma strip_prefix_length kw : forall s r,
strip_prefix kw s = Some r -> (length r <= length s)%nat.
Proof.
induction kw as [| k kw IH]; intros s r; simpl.
- intros [= ->]. lia.
- destruct s as [| c s]; [done |].
  destruct (k =? c)%N; [| done].
  intros H. apply IH in H. simpl. lia.
Qed.

Lemma parse_digits_length s : forall acc cnt n c r,
parse_digits s acc cnt = (n, c, r) -> (length r <= length s)%nat.
Proof.
induction s as [| d s IH]; intros acc cnt n c r; simpl.
- intros [= <- <- <-]. simpl. lia.
- destruct (is_digit d).
  + intros H. apply IH in H. lia.
  + intros [= <- <- <-]. simpl. lia.
Qed.

Lemma parse_number_length s n r :
parse_number s = Some (n, r) -> (length r < length s)%nat.
Proof.
unfold parse_number.
assert (forall s1 i s2, parse_int s1 = Some (i, s2) ->
                        (length s2 < length s1)%nat) as Hint.
{ intros s1 i s2. unfold parse_int. destruct s1 as [| c s1]; [done |].
  destruct (c =? 48)%N; [intros [= <- <-]; simpl; lia |].
  destruct (is_digit c); [| done].
  destruct (parse_digits s1 (c - 48)%N 1) as [[m k] rest] eqn:E.
  intros [= <- <-]. apply parse_digits_length in E. simpl. lia. }
assert (forall m s2 m' k s3, parse_frac m s2 = Some (m', k, s3) ->
                             (length s3 <= length s2)%nat) as Hfrac.
{ intros m s2 m' k s3. unfold parse_frac.
  destruct s2 as [| c s2]; [intros [= <- <- <-]; simpl; lia |].
  destruct (N.eq_dec c 46%N) as [-> | Hc].
  - destruct (parse_digits s2 m 0) as [[m2 k2] rest] eqn:E.
    destruct k2; [done |]. intros [= <- <- <-].
    apply parse_digits_length in E. simpl. lia.
  - intros H. assert (Some (m, O, c :: s2) = Some (m', k, s3)) as [= <- <- <-].
    { rewrite <- H. clear H. case_unit c. }
    lia. }
assert (forall neg s3 e s4, parse_exp_digits neg s3 = Some (e, s4) ->
                            (length s4 <= length s3)%nat) as Hed.
{ intros neg s3 e s4. unfold parse_exp_digits.
  destruct (parse_digits s3 0 0) as [[m k] rest] eqn:E.
  destruct k; [done |]. intros [= <- <-].
  by apply parse_digits_length in E. }
assert (forall s3 e s4, parse_exp s3 = Some (e, s4) ->
                        (length s4 <= length s3)%nat) as Hexp.
{ intros s3 e s4. unfold parse_exp.
  destruct s3 as [| c s3]; [intros [= <- <-]; simpl; lia |].
  destruct ((c =? 101) || (c =? 69))%N; [| intros [= <- <-]; lia].
  intros H.
  assert (exists neg s', (length s' <= length s3)%nat /\
                         parse_exp_digits neg s' = Some (e, s4))
    as (neg & s' & Hs' & H').
  { destruct s3 as [| d s3]; [by exists false, [] |].
    destruct (N.eq_dec d 43%N) as [-> | H43];
      [exists false, s3; split; [simpl; lia | done] |].
    destruct (N.eq_dec d 45%N) as [-> | H45];
      [exists true, s3; split; [simpl; lia | done] |].
    exists false, (d :: s3). split; [lia |]. rewrite <- H. clear H.
    case_unit d. }
  apply Hed in H'. simpl. lia. }
destruct s as [| c s]; [done |].
set (p := match c :: s with 45%N :: r0 => (true, r0) | _ => (false, c :: s) end).
assert (length p.2 <= length (c :: s))%nat as Hp.
{ unfold p. destruct (N.eq_dec c 45%N) as [-> | Hc]; [simpl; lia |].
  assert (match c :: s with 45%N :: r0 => (true, r0) | _ => (false, c :: s) end
          = (false, c :: s)) as -> by case_unit c.
  done. }
destruct p as [neg s1]. simpl in Hp.
destruct (parse_int s1) as [[i s2] |] eqn:E1; [| done].
destruct (parse_frac i s2) as [[[m k] s3] |] eqn:E2; [| done].
destruct (parse_exp s3) as [[e s4] |] eqn:E3; [| done].
intros [= <- <-].
apply Hint in E1. apply Hfrac in E2. apply Hexp in E3. simpl. lia.
Qed.

Lemma skip_ws_length_eq s x : skip_ws s = x -> (length x <= length s)%nat.
Proof. intros <-. apply skip_ws_length. Qed.

Ltac note H :=
let T := type of H in
lazymatch goal with
| _ : T |- _ => fail
| _ => pose proof H
end.

Ltac collect_lengths :=
repeat match goal with
  | H : skip_ws _ = _ |- _ => note (skip_ws_length_eq _ _ H)
  | H : parse_chars _ = Some _ |- _ => note (parse_chars_length _ _ _ H)
  | H : strip_prefix _ _ = Some _ |- _ => note (strip_prefix_length _ _ _ H)
  | H : parse_number _ = Some _ |- _ => note (parse_number_length _ _ _ H)
  end;
cbn [length] in *.

Ltac use_eqs :=
repeat match goal with
  | H : ?x = _ |- context [?x] => rewrite H
  end.

Ltac split_parse H :=
repeat match type of H with
  | match ?x with _ => _ end = Some _ => destruct x eqn:?; try discriminate
  end.

Lemma parse_fuel_enough (f : nat) :
(forall s v r, parse_value f s = Some (v, r) ->
   (length r < length s)%nat /\
   parse_value (2 * (length s - length r)) s = Some (v, r)) /\
(forall s acc v r, parse_elements f s acc = Some (v, r) ->
   (length r < length s)%nat /\
   parse_elements (2 * (length s - length r) + 1) s acc = Some (v, r)) /\
(forall s acc v r, parse_members f s acc = Some (v, r) ->
   (length r < length s)%nat /\
   parse_members (2 * (length s - length r) + 1) s acc = Some (v, r)).
Proof.
induction f as [| f (IHv & IHe & IHm)]; [by repeat split |].
split; [| split].
- intros s v r H. cbn [parse_value] in H.
  destruct (skip_ws s) as [| c r0] eqn:Hs; [done |].
  destruct (c =? 123)%N eqn:E1.
  { destruct (skip_ws r0) as [| c1 r1] eqn:Hs1.
    - apply IHm in H as [L H]. collect_lengths. split; [lia |].
      apply (proj1 (parse_fuel_mono (S (2 * (length r0 - length r) + 1))));
        [| lia].
      cbn [parse_value]. by rewrite Hs, E1, Hs1.
    - destruct (N.eq_dec c1 125%N) as [-> | Hc1].
      + injection H as <- <-. collect_lengths. split; [lia |].
        apply (proj1 (parse_fuel_mono 1)); [| lia].
        cbn [parse_value]. by rewrite Hs, E1, Hs1.
      + assert (forall X Y : option (json * jsstr),
                  match c1 :: r1 with 125%N :: _ => X | _ => Y end = Y) as Hm
          by (intros; case_unit c1).
        rewrite Hm in H. apply IHm in H as [L H]. collect_lengths.
        split; [lia |].
        apply (proj1 (parse_fuel_mono (S (2 * (length r0 - length r) + 1))));
          [| lia].
        cbn [parse_value]. by rewrite Hs, E1, Hs1, Hm. }
  destruct (c =? 91)%N eqn:E2.
  { destruct (skip_ws r0) as [| c1 r1] eqn:Hs1.
    - apply IHe in H as [L H]. collect_lengths. split; [lia |].
      apply (proj1 (parse_fuel_mono (S (2 * (length r0 - length r) + 1))));
        [| lia].
      cbn [parse_value]. by rewrite Hs, E1, E2, Hs1.
    - destruct (N.eq_dec c1 93%N) as [-> | Hc1].
      + injection H as <- <-. collect_lengths. split; [lia |].
        apply (proj1 (parse_fuel_mono 1)); [| lia].
        cbn [parse_value]. by rewrite Hs, E1, E2, Hs1.
      + assert (forall X Y : option (json * jsstr),
                  match c1 :: r1 with 93%N :: _ => X | _ => Y end = Y) as Hm
          by (intros; case_unit c1).
        rewrite Hm in H. apply IHe in H as [L H]. collect_lengths.
        split; [lia |].
        apply (proj1 (parse_fuel_mono (S (2 * (length r0 - length r) + 1))));
          [| lia].
        cbn [parse_value]. by rewrite Hs, E1, E2, Hs1, Hm. }
  (* the values without nesting need one unit of fuel *)
  assert (parse_value 1 s = Some (v, r)) as H1.
  { cbn [parse_value]. rewrite Hs, E1, E2. exact H. }
  split; [| apply (proj1 (parse_fuel_mono 1) _ _ H1)].
  all: split_parse H; injection H as <- <-; collect_lengths; lia.
- intros s acc v r H. cbn [parse_elements] in H.
  destruct (parse_value f s) as [[v1 r1] |] eqn:Ev; [| done].
  apply IHv in Ev as [Lv Ev].
  destruct (skip_ws r1) as [| c1 r2] eqn:Hs1; [done |].
  destruct (N.eq_dec c1 44%N) as [-> | Hc1].
  + apply IHe in H as [L H]. collect_lengths. split; [lia |].
    set (g := (2 * (length s - length r1)) `max` (2 * (length r2 - length r) + 1)).
    apply (proj1 (proj2 (parse_fuel_mono (S g)))); [| lia].
    cbn [parse_elements].
    rewrite (proj1 (parse_fuel_mono _) _ _ Ev g), Hs1 by lia.
    apply (proj1 (proj2 (parse_fuel_mono _)) _ _ _ H). lia.
  + destruct (N.eq_dec c1 93%N) as [-> | Hc2].
    * injection H as <- <-. collect_lengths. split; [lia |].
      apply (proj1 (proj2 (parse_fuel_mono (S (2 * (length s - length r1))))));
        [| lia].
      cbn [parse_elements]. by rewrite Ev, Hs1.
    * exfalso. revert H. clear -Hc1 Hc2. case_unit c1.
- intros s acc v r H. cbn [parse_members] in H.
  destruct (skip_ws s) as [| c0 r0] eqn:Hs; [done |].
  destruct (N.eq_dec c0 34%N) as [-> | Hc0];
    [| exfalso; revert H; clear -Hc0; case_unit c0].
  destruct (parse_chars r0) as [[k r1] |] eqn:Ek; [| done].
  destruct (skip_ws r1) as [| c1 r2] eqn:Hs1; [done |].
  destruct (N.eq_dec c1 58%N) as [-> | Hc1];
    [| exfalso; revert H; clear -Hc1; case_unit c1].
  destruct (parse_value f r2) as [[v1 r3] |] eqn:Ev; [| done].
  apply IHv in Ev as [Lv Ev].
  destruct (skip_ws r3) as [| c3 r4] eqn:Hs3; [done |].
  destruct (N.eq_dec c3 44%N) as [-> | Hc3].
  + apply IHm in H as [L H]. collect_lengths. split; [lia |].
    set (g := (2 * (length r2 - length r3)) `max` (2 * (length r4 - length r) + 1)).
    apply (proj2 (proj2 (parse_fuel_mono (S g)))); [| lia].
    cbn [parse_members]. rewrite Hs, Ek, Hs1.
    rewrite (proj1 (parse_fuel_mono _) _ _ Ev g), Hs3 by lia.
    apply (proj2 (proj2 (parse_fuel_mono _)) _ _ _ H). lia.
  + destruct (N.eq_dec c3 125%N) as [-> | Hc4].
    * injection H as <- <-. collect_lengths. split; [lia |].
      apply (proj2 (proj2 (parse_fuel_mono (S (2 * (length r2 - length r3))))));
        [| lia].
      cbn [parse_members]. by rewrite Hs, Ek, Hs1, Ev, Hs3.
    * exfalso. revert H. clear -Hc3 Hc4. case_unit c3.
Qed.

(** The fuel [JSON_parse] starts with is enough: a text that parses with some
  amount of fuel parses with that one. *)
Lemma JSON_parse_fuel s f v r :
parse_value f s = Some (v, r) -> skip_ws r = [] -> JSON_parse s = Some v.
Proof.
intros H Hr. apply (proj1 (parse_fuel_enough f)) in H as [L H].
unfold JSON_parse.
rewrite (proj1 (parse_fuel_mono _) _ _ H (2 * length s)) by lia.
by rewrite Hr.
Qed.
End ParseFuel.

(** ** The runtime: a stored profile read back *)

Lemma parse_value_string f v rest :
  parse_value (S f) (quote v ++ rest) = Some (JStr v, rest).
Proof.
  unfold quote. rewrite <- !app_assoc. cbn [app parse_value skip_ws].
  change (is_ws 34) with false. cbv iota.
  change (34 =? 123)%N with false. change (34 =? 91)%N with false.
  change (34 =? 34)%N with true. cbv iota.
  by rewrite parse_chars_quote_body.
Qed.

Lemma parse_value_bool f (b : bool) rest :
  parse_value (S f) ((if b then lit "true" else lit "false") ++ rest) =
  Some (JBool b, rest).
Proof. by destruct b. Qed.

(** One member [key:value] of an object, followed by a comma or by the closing
    brace, given that the value text [vtxt] parses to [v]. *)
Lemma parse_members_comma f k vtxt v rest acc :
  (forall r, parse_value f (vtxt ++ r) = Some (v, r)) ->
  parse_members (S f) (quote k ++ lit ":" ++ vtxt ++ lit "," ++ rest) acc =
  parse_members f rest (obj_set k v acc).
Proof.
  intros Hv. unfold quote. rewrite <- !app_assoc.
  cbn [app parse_members skip_ws].
  change (is_ws 34) with false. cbv iota.
  rewrite parse_chars_quote_body.
  change (lit ":" ++ vtxt ++ lit "," ++ rest)
    with (58%N :: vtxt ++ 44%N :: rest).
  cbn [skip_ws]. change (is_ws 58) with false. cbv iota.
  rewrite Hv. cbn [skip_ws]. change (is_ws 44) with false. reflexivity.
Qed.

Lemma parse_members_brace f k vtxt v rest acc :
  (forall r, parse_value f (vtxt ++ r) = Some (v, r)) ->
  parse_members (S f) (quote k ++ lit ":" ++ vtxt ++ lit "}" ++ rest) acc =
  Some (JObj (obj_set k v acc), rest).
Proof.
  intros Hv. unfold quote. rewrite <- !app_assoc.
  cbn [app parse_members skip_ws].
  change (is_ws 34) with false. cbv iota.
  rewrite parse_chars_quote_body.
  change (lit ":" ++ vtxt ++ lit "}" ++ rest)
    with (58%N :: vtxt ++ 125%N :: rest).
  cbn [skip_ws]. change (is_ws 58) with false. cbv iota.
  rewrite Hv. cbn [skip_ws]. change (is_ws 125) with false. reflexivity.
Qed.

(** The text [JSON.stringify] writes for a profile, spelled out. *)
Lemma stringify_profile nts i p c a v :
  JSON_stringify nts
    (JObj [ (lit "id", JStr i); (lit "phoneNumber", JStr p);
            (lit "createdAt", JStr c); (lit "lastActive", JStr a);
            (lit "verified", JBool v) ]) =
  lit "{" ++
  quote (lit "id") ++ lit ":" ++ quote i ++ lit "," ++
  quote (lit "phoneNumber") ++ lit ":" ++ quote p ++ lit "," ++
  quote (lit "createdAt") ++ lit ":" ++ quote c ++ lit "," ++
  quote (lit "lastActive") ++ lit ":" ++ quote a ++ lit "," ++
  quote (lit "verified") ++ lit ":" ++
  (if v then lit "true" else lit "false") ++ lit "}" ++ [].
Proof.
  cbn [JSON_stringify map join flat_map fst snd].
  rewrite !app_nil_r, <- !app_assoc. by destruct v.
Qed.

(** [JSON.parse] reads a stringified profile back. *)
Lemma parse_stringify_profile nts i p c a v :
  let profile :=
    JObj [ (lit "id", JStr i); (lit "phoneNumber", JStr p);
           (lit "createdAt", JStr c); (lit "lastActive", JStr a);
           (lit "verified", JBool v) ] in
  JSON_parse (JSON_stringify nts profile) = Some profile.
Proof.
  intros profile. unfold JSON_parse.
  assert (parse_value 7 (JSON_stringify nts profile) = Some (profile, [])) as H.
  { unfold profile. rewrite stringify_profile.
    change (lit "{" ++ ?x) with (123%N :: x).
    cbn [parse_value skip_ws]. change (is_ws 123) with false. cbv iota.
    change (123 =? 123)%N with true. cbv iota.
    unfold quote at 1. cbn [app skip_ws]. change (is_ws 34) with false.
    cbv iota. change (34%N :: (quote_body (lit "id") ++ [34%N]) ++ ?x)
      with (quote (lit "id") ++ x).
    do 4 (rewrite parse_members_comma with (v := JStr _)
            by (intros r; apply parse_value_string)).
    rewrite parse_members_brace with (v := JBool v)
      by (intros r; apply parse_value_bool).
    reflexivity. }
  rewrite (proj1 (parse_fuel_mono 7) _ _ H).
  - reflexivity.
  - unfold profile. rewrite stringify_profile. unfold quote. simpl length. lia.
Qed.

(** ** The monad and the storage keys *)

Ltac munfold :=
  unfold or_throw, try_catch, mbind, M_bind, mret, M_ret, throw,
    console_error, console_log, localStorage_getItem, localStorage_removeItem,
    localStorage_setItem, Date_now, fetch in *.

Lemma try_catch_returns {A} (body : M A) (handler : exn -> M A) :
  (forall e w, exists a, (handler e w).1 = Ok a) ->
  forall w, exists a, (try_catch body handler w).1 = Ok a.
Proof.
  intros Hh w. unfold try_catch.
  destruct (body w) as [[a | e] w']; [by exists a | apply Hh].
Qed.

Lemma key_token_user : lit "healthBuddieToken" ≠ lit "healthBuddieUser".
Proof. by vm_compute. Qed.

Lemma key_phone_token : lit "phoneNumber" ≠ lit "healthBuddieToken".
Proof. by vm_compute. Qed.

Lemma key_phone_user : lit "phoneNumber" ≠ lit "healthBuddieUser".
Proof. by vm_compute. Qed.

Lemma key_plain_token_token : lit "token" ≠ lit "healthBuddieToken".
Proof. by vm_compute. Qed.

Lemma key_plain_token_user : lit "token" ≠ lit "healthBuddieUser".
Proof. by vm_compute. Qed.

(** ** Identity retrieval *)

Lemma getPhoneNumber_result w :
  (getPhoneNumber w).1 = Ok (stored_identity (storage w !! lit "healthBuddieUser")).
Proof.
  unfold getPhoneNumber, stored_identity, prop. munfold. simpl.
  destruct (storage w !! lit "healthBuddieUser") as [[| c s] |]; try done.
  destruct (JSON_parse (c :: s)) as [u |]; simpl; [| done].
  by destruct (get_prop u (lit "phoneNumber")).
Qed.

(** [getPhoneNumber] touches nothing but the console. *)
Lemma getPhoneNumber_frame w :
  storage (getPhoneNumber w).2 = storage w /\
  reads (getPhoneNumber w).2 = reads w /\
  requests (getPhoneNumber w).2 = requests w.
Proof.
  unfold getPhoneNumber, prop. munfold. simpl.
  destruct (storage w !! lit "healthBuddieUser") as [[| c s] |]; try done.
  destruct (JSON_parse (c :: s)) as [u |]; simpl; [| done].
  by destruct (get_prop u (lit "phoneNumber")).
Qed.

Lemma or_else_null p : or_else p JNull = JNull \/ truthy (or_else p JNull) = true.
Proof.
  destruct p as [v |]; simpl; [| by left].
  destruct (truthy v) eqn:E; [by right | by left].
Qed.

(** The identity is [null] or a truthy value, never another falsy one. *)
Lemma stored_identity_cases profile :
  stored_identity profile = JNull \/ truthy (stored_identity profile) = true.
Proof.
  unfold stored_identity.
  destruct profile as [[| c s] |]; try by left.
  destruct (JSON_parse (c :: s)) as [u |]; [| by left].
  destruct (get_prop u (lit "phoneNumber")); [apply or_else_null | by left].
Qed.

Lemma isAuthenticated_result w :
  (isAuthenticated w).1 =
  Ok (negb (absent (storage w !! lit "healthBuddieToken")) &&
      truthy (stored_identity (storage w !! lit "healthBuddieUser"))).
Proof.
  unfold isAuthenticated, getToken. munfold. simpl.
  destruct (absent (storage w !! lit "healthBuddieToken")); [done |].
  pose proof (getPhoneNumber_result w) as H.
  destruct (getPhoneNumber w) as [[v | e] w']; simpl in *; congruence.
Qed.

(** C9: whatever string is stored under the profile key, [getPhoneNumber]
    returns a value and never raises; when the stored string is not valid JSON
    (or is the JSON [null], whose property read raises) the value is [null],
    "no identity". [isAuthenticated] returns a boolean and never raises, and is
    false on such a profile. *)
Theorem getPhoneNumber_never_raises (w : World) :
  (exists v, (getPhoneNumber w).1 = Ok v) /\
  (forall s, storage w !! lit "healthBuddieUser" = Some s ->
             JSON_parse s = None \/ JSON_parse s = Some JNull ->
             (getPhoneNumber w).1 = Ok JNull /\
             (isAuthenticated w).1 = Ok false) /\
  (exists b, (isAuthenticated w).1 = Ok b).
Proof.
  split; [| split].
  - eexists. apply getPhoneNumber_result.
  - intros s Hs Hbad.
    rewrite getPhoneNumber_result, isAuthenticated_result, Hs.
    assert (stored_identity (Some s) = JNull) as ->.
    { unfold stored_identity. destruct s as [| c s]; [done |].
      by destruct Hbad as [-> | ->]. }
    split; [done |]. simpl. by rewrite andb_false_r.
  - eexists. apply isAuthenticated_result.
Qed.

(** ** logout *)

Lemma logout_result w :
  logout w =
  (Ok tt,
   {| storage := delete (lit "healthBuddieUser")
                   (delete (lit "healthBuddieToken") (storage w));
      reads := reads w; requests := requests w; console := console w |}).
Proof. reflexivity. Qed.

(** C8: after [logout], from any state, [isAuthenticated] returns false;
    [logout] on a state without token and profile changes nothing, and a second
    [logout] leaves the state the first one produced. *)
Theorem logout_idempotent (w : World) :
  (logout w).1 = Ok tt /\
  (isAuthenticated (logout w).2).1 = Ok false /\
  (storage w !! lit "healthBuddieToken" = None ->
   storage w !! lit "healthBuddieUser" = None ->
   (logout w).2 = w) /\
  (logout (logout w).2).2 = (logout w).2.
Proof.
  rewrite !logout_result. simpl. split; [done |]. split; [| split].
  - rewrite isAuthenticated_result. simpl.
    rewrite lookup_delete_ne by apply not_eq_sym, key_token_user.
    by rewrite lookup_delete_eq.
  - intros Ht Hu. destruct w as [st rd rq co]. simpl in *. f_equal.
    rewrite (delete_id st) by done. by apply delete_id.
  - f_equal.
    rewrite (delete_delete _ (lit "healthBuddieToken") (lit "healthBuddieUser")).
    by rewrite !delete_delete_eq.
Qed.

(** ** Mock data generators *)

(** C4: with [today] the clock reading a generator takes, each generator
    returns exactly three entries: exercise logs 1, 2 and 4 days before [today]
    (running 30 min 3 miles, cycling 45 min 10 miles, yoga 60 min with an empty
    distance), food logs 1, 2 and 3 days before with their fixed descriptions,
    messages 1, 2 and 3 days before, all incoming, classified exercise, food
    and not at all; every sequence of dates is nonincreasing. *)
Theorem mock_generators_fixed (rt : Runtime) (w : World) :
  let today := clock rt (reads w) in
  (exists e1 e2 e3,
      (getMockExerciseLogs rt w).1 = Ok [e1; e2; e3] /\
      ExerciseLog.date <$> [e1; e2; e3] =
        [days_before today 1; days_before today 2; days_before today 4] /\
      (fun e => (ExerciseLog.type e, ExerciseLog.duration e, ExerciseLog.distance e))
        <$> [e1; e2; e3] =
        [(lit "running", 30, lit "3 miles"); (lit "cycling", 45, lit "10 miles");
         (lit "yoga", 60, [])] /\
      nonincreasing (ExerciseLog.date <$> [e1; e2; e3]) = true) /\
  (exists f1 f2 f3,
      (getMockFoodLogs rt w).1 = Ok [f1; f2; f3] /\
      FoodLog.date <$> [f1; f2; f3] =
        [days_before today 1; days_before today 2; days_before today 3] /\
      FoodLog.foodItems <$> [f1; f2; f3] =
        [lit "Salad with grilled chicken"; lit "Oatmeal with berries and honey";
         lit "Pasta with tomato sauce"] /\
      nonincreasing (FoodLog.date <$> [f1; f2; f3]) = true) /\
  (exists m1 m2 m3,
      (getMockMessages rt w).1 = Ok [m1; m2; m3] /\
      Message.timestamp <$> [m1; m2; m3] =
        [days_before today 1; days_before today 2; days_before today 3] /\
      Message.type <$> [m1; m2; m3] =
        [lit "incoming"; lit "incoming"; lit "incoming"] /\
      Message.category <$> [m1; m2; m3] =
        [Some (lit "exercise"); Some (lit "food"); None] /\
      nonincreasing (Message.timestamp <$> [m1; m2; m3]) = true).
Proof.
  intros today. unfold days_before, ms_per_day.
  split; [| split]; do 3 eexists;
    (split; [reflexivity |]); simpl; fold today;
    repeat split; try (f_equal; lia);
    rewrite !andb_true_r, andb_true_iff, !Z.leb_le; lia.
Qed.

(** ** Header builder *)

Lemma getHeaders_result w :
  (getHeaders w).1 =
  Ok (let phoneNumber := stored_identity (storage w !! lit "healthBuddieUser") in
      let headers : gmap jsstr json :=
        {[ lit "Content-Type" := JStr (lit "application/json") ]} in
      let headers :=
        if truthy phoneNumber
        then <[ lit "X-Phone-Number" := phoneNumber ]> headers else headers in
      match storage w !! lit "healthBuddieToken" with
      | Some (c :: s) =>
          <[ lit "Authorization" := JStr (lit "Bearer " ++ c :: s) ]> headers
      | _ => headers
      end).
Proof.
  unfold getHeaders, getToken. munfold. simpl.
  pose proof (getPhoneNumber_result w) as H.
  destruct (getPhoneNumber w) as [[v | e] w']; simpl in *; [| done].
  by injection H as ->.
Qed.

Lemma getHeaders_frame w :
  storage (getHeaders w).2 = storage w /\
  reads (getHeaders w).2 = reads w /\
  requests (getHeaders w).2 = requests w.
Proof.
  unfold getHeaders, getToken. munfold. simpl.
  pose proof (getPhoneNumber_result w) as H.
  pose proof (getPhoneNumber_frame w) as F.
  destruct (getPhoneNumber w) as [[v | e] w']; simpl in *; done.
Qed.

(** C7: with an identity [I] and a token [T] present, the header builder
    returns exactly content type, [X-Phone-Number] holding [I] as stored (not
    encoded) and [Authorization] holding [Bearer T]; with neither present it
    returns the content type alone. *)
Theorem getHeaders_of_session (w : World) :
  (forall I T,
      (getPhoneNumber w).1 = Ok I -> truthy I = true ->
      storage w !! lit "healthBuddieToken" = Some T -> T <> [] ->
      (getHeaders w).1 =
      Ok (<[ lit "Authorization" := JStr (lit "Bearer " ++ T) ]>
            (<[ lit "X-Phone-Number" := I ]>
               {[ lit "Content-Type" := JStr (lit "application/json") ]}))) /\
  ((getPhoneNumber w).1 = Ok JNull ->
   absent (storage w !! lit "healthBuddieToken") = true ->
   (getHeaders w).1 =
   Ok {[ lit "Content-Type" := JStr (lit "application/json") ]}).
Proof.
  rewrite getHeaders_result, getPhoneNumber_result. split.
  - intros I T [= ->] HI HT HT'. rewrite HT. simpl. rewrite HI.
    by destruct T.
  - intros [= ->] HT. simpl.
    by destruct (storage w !! lit "healthBuddieToken") as [[| c s] |].
Qed.

(** ** login *)

(** A [login] that returns has written the profile and then the token, and
    nothing else to storage; it sends no request. *)
Lemma login_returns rt P w res w' :
  login rt P w = (Ok res, w') ->
  res = {| LoginResult.success := true; LoginResult.user := login_user rt P w |} /\
  storage w' =
    <[ lit "healthBuddieToken" :=
         lit "demo-token-" ++ dec_Z (clock rt (S (S (S (reads w))))) ]>
      (<[ lit "healthBuddieUser" :=
            JSON_stringify (Number_toString rt) (User.to_json (login_user rt P w)) ]>
         (storage w)) /\
  requests w' = requests w.
Proof.
  unfold login. munfold. simpl.
  destruct (quota rt (storage w) _ _); simpl; [| done].
  destruct (quota rt (<[_ := _]> (storage w)) _ _); simpl; [| done].
  intros [= <- <-]. done.
Qed.

(** [login] returns whenever its two writes fit the quota, and otherwise
    rethrows what [setItem] raised. *)
Lemma login_outcome rt P w :
  (exists res w', login rt P w = (Ok res, w')) \/
  (exists w', login rt P w = (Throw QuotaExceededError, w')).
Proof.
  unfold login. munfold. simpl.
  destruct (quota rt (storage w) _ _); simpl; [| right; by eexists].
  destruct (quota rt (<[_ := _]> (storage w)) _ _); simpl;
    [left; by eexists _, _ | right; by eexists].
Qed.

Lemma stored_identity_profile nts (u : User.t) :
  User.phoneNumber u <> [] ->
  stored_identity (Some (JSON_stringify nts (User.to_json u))) =
  JStr (User.phoneNumber u).
Proof.
  intros HP. unfold stored_identity.
  pose proof (parse_stringify_profile nts (User.id u) (User.phoneNumber u)
                (toISOString (User.createdAt u)) (toISOString (User.lastActive u))
                (User.verified u)) as H.
  cbv zeta in H. fold (User.to_json u) in H.
  destruct (JSON_stringify nts (User.to_json u)) as [| c s] eqn:E.
  { rewrite <- E in H. unfold User.to_json in E. rewrite stringify_profile in E.
    discriminate. }
  rewrite H. unfold User.to_json. cbn [get_prop].
  replace (obj_get (lit "phoneNumber") _) with (Some (JStr (User.phoneNumber u)))
    by reflexivity.
  cbn [or_else truthy]. by destruct (User.phoneNumber u).
Qed.

(** The state a returned [login] leaves holds the profile text, from which the
    identity [P] is read back, and a token. *)
Lemma login_stores_identity rt P w res w' :
  P <> [] ->
  login rt P w = (Ok res, w') ->
  storage w' !! lit "healthBuddieUser" =
    Some (JSON_stringify (Number_toString rt) (User.to_json (login_user rt P w))) /\
  stored_identity (storage w' !! lit "healthBuddieUser") = JStr P /\
  (isAuthenticated w').1 = Ok true.
Proof.
  intros HP Hlogin.
  destruct (login_returns _ _ _ _ _ Hlogin) as (_ & Hst & _).
  assert (storage w' !! lit "healthBuddieUser" =
          Some (JSON_stringify (Number_toString rt)
                  (User.to_json (login_user rt P w)))) as Hu.
  { rewrite Hst, lookup_insert_ne by apply key_token_user.
    apply lookup_insert_eq. }
  assert (stored_identity (storage w' !! lit "healthBuddieUser") = JStr P) as Hid.
  { rewrite Hu. by apply (stored_identity_profile _ (login_user rt P w)). }
  repeat split; [done.. |].
  rewrite isAuthenticated_result, Hid, Hst, lookup_insert_eq.
  simpl. by destruct P.
Qed.

(** C2: for a non-empty phone number [P], once [login P] has returned,
    [isAuthenticated] returns true; the stored profile is the JSON text of the
    returned user, and parses to an object whose [phoneNumber] is [P], whose
    [verified] is true and whose [id] is [user-] followed by the clock reading
    taken at the call; [login] returned [{ success: true, user }] with that
    user. *)
Theorem login_establishes_session
    (rt : Runtime) (P : jsstr) (w : World) (res : LoginResult.t) (w' : World) :
  P <> [] ->
  login rt P w = (Ok res, w') ->
  (isAuthenticated w').1 = Ok true /\
  (getPhoneNumber w').1 = Ok (JStr P) /\
  (exists text profile,
      storage w' !! lit "healthBuddieUser" = Some text /\
      JSON_parse text = Some profile /\
      profile = User.to_json (LoginResult.user res) /\
      get_prop profile (lit "phoneNumber") = Some (Some (JStr P)) /\
      get_prop profile (lit "verified") = Some (Some (JBool true)) /\
      get_prop profile (lit "id") =
        Some (Some (JStr (lit "user-" ++ dec_Z (clock rt (reads w)))))) /\
  LoginResult.success res = true /\
  User.phoneNumber (LoginResult.user res) = P /\
  User.verified (LoginResult.user res) = true /\
  User.id (LoginResult.user res) = lit "user-" ++ dec_Z (clock rt (reads w)).
Proof.
  intros HP Hlogin.
  destruct (login_stores_identity _ _ _ _ _ HP Hlogin) as (Hu & Hid & Hauth).
  destruct (login_returns _ _ _ _ _ Hlogin) as (-> & _ & _).
  repeat split; [done | by rewrite getPhoneNumber_result, Hid |].
  eexists _, _. split; [exact Hu |]. split; [| done].
  apply parse_stringify_profile.
Qed.

(** ** getMessages and testApiConnection without an identity *)

Lemma getMessages_no_identity rt w :
  absent (storage w !! lit "phoneNumber") = true ->
  getMessages rt w =
  (Ok {| ApiResponse.success := false;
         ApiResponse.data := None;
         ApiResponse.error := Some (JStr (lit "No phone number found")) |},
   {| storage := storage w; reads := reads w; requests := requests w;
      console := console w ++ [(Err, lit "No phone number found in localStorage")] |}).
Proof.
  intros H. unfold getMessages. munfold. simpl.
  by destruct (storage w !! lit "phoneNumber") as [[| c s] |].
Qed.

Lemma getMessages_returns rt w : exists r, (getMessages rt w).1 = Ok r.
Proof. apply try_catch_returns. intros e w'. by eexists. Qed.

Lemma testApiConnection_returns rt w : exists r, (testApiConnection rt w).1 = Ok r.
Proof. apply try_catch_returns. intros e w'. by eexists. Qed.

Lemma testApiConnection_no_identity rt w :
  (getPhoneNumber w).1 = Ok JNull ->
  (testApiConnection rt w).1 =
    Ok {| TestResult.success := false;
          TestResult.message := None;
          TestResult.error :=
            Some (Error (lit "No phone number available. Please log in again.")) |} /\
  requests (testApiConnection rt w).2 = requests w.
Proof.
  intros H. pose proof (getPhoneNumber_frame w) as (_ & _ & F).
  unfold testApiConnection. munfold.
  destruct (getPhoneNumber w) as [[v | e] w1]; simpl in *; [| done].
  injection H as ->. done.
Qed.

(** C3, amended: [getMessages] reads the key [phoneNumber], which is not a key
    [login] writes; so in the state a returned [login P] leaves, when no value
    is stored under [phoneNumber], [getMessages] answers
    [{ success: false, error: "No phone number found" }] and sends nothing,
    while, for a non-empty [P], [isAuthenticated] is true. *)
Theorem getMessages_blind_to_login
    (rt : Runtime) (P : jsstr) (w : World) (res : LoginResult.t) (w' : World) :
  absent (storage w !! lit "phoneNumber") = true ->
  login rt P w = (Ok res, w') ->
  storage w' !! lit "phoneNumber" = storage w !! lit "phoneNumber" /\
  (getMessages rt w').1 =
    Ok {| ApiResponse.success := false;
          ApiResponse.data := None;
          ApiResponse.error := Some (JStr (lit "No phone number found")) |} /\
  requests (getMessages rt w').2 = requests w' /\
  (P <> [] -> (isAuthenticated w').1 = Ok true).
Proof.
  intros Habs Hlogin.
  destruct (login_returns _ _ _ _ _ Hlogin) as (_ & Hst & _).
  assert (storage w' !! lit "phoneNumber" = storage w !! lit "phoneNumber") as Hk.
  { rewrite Hst, lookup_insert_ne by apply not_eq_sym, key_phone_token.
    by rewrite lookup_insert_ne by apply not_eq_sym, key_phone_user. }
  split; [done |].
  rewrite getMessages_no_identity by by rewrite Hk.
  repeat split.
  intros HP. by apply (login_stores_identity rt P w res w').
Qed.

(** C3 as stated fails for the empty phone number: [login("")] returns, and in
    the state it leaves [getMessages] answers "No phone number found" while
    [isAuthenticated] is false, not true. *)
Lemma login_empty_not_authenticated :
  let rt := service 200 inbox in
  let w' := (login rt [] fresh_world).2 in
  (login rt [] fresh_world).1 =
    Ok {| LoginResult.success := true;
          LoginResult.user := login_user rt [] fresh_world |} /\
  (getMessages rt w').1 =
    Ok (messages_failure (JStr (lit "No phone number found"))) /\
  (isAuthenticated w').1 = Ok false.
Proof. by vm_compute. Qed.

(** C5: without a value under [phoneNumber], [getMessages] returns exactly
    [{ success: false, error: "No phone number found" }] and the list of
    requests sent is unchanged; without a stored identity, [testApiConnection]
    returns [{ success: false, error }] with the [Error] "No phone number
    available. Please log in again." and sends nothing; both operations return
    a result, whatever the state and the network do. *)
Theorem no_identity_no_request (rt : Runtime) (w : World) :
  (absent (storage w !! lit "phoneNumber") = true ->
   (getMessages rt w).1 =
     Ok {| ApiResponse.success := false;
           ApiResponse.data := None;
           ApiResponse.error := Some (JStr (lit "No phone number found")) |} /\
   requests (getMessages rt w).2 = requests w) /\
  ((getPhoneNumber w).1 = Ok JNull ->
   (testApiConnection rt w).1 =
     Ok {| TestResult.success := false;
           TestResult.message := None;
           TestResult.error :=
             Some (Error (lit "No phone number available. Please log in again.")) |} /\
   requests (testApiConnection rt w).2 = requests w) /\
  (exists r, (getMessages rt w).1 = Ok r) /\
  (exists r, (testApiConnection rt w).1 = Ok r).
Proof.
  split; [| split; [| split]].
  - intros H. by rewrite getMessages_no_identity.
  - apply testApiConnection_no_identity.
  - apply getMessages_returns.
  - apply testApiConnection_returns.
Qed.

(** ** getHealthData *)

Lemma mock_envelope_result rt w :
  exists r w', mock_envelope rt w = (Ok r, w') /\
               mock_fallback rt r /\ requests w' = requests w.
Proof.
  eexists _, _. split; [reflexivity |]. split; [| reflexivity].
  eexists w, _, _, _. repeat split.
Qed.

(** Either exit that logs an error and falls back. *)
Lemma getHealthData_unfold rt days :
  getHealthData rt days =
  try_catch
    (phoneNumber ← getPhoneNumber;
     if negb (truthy phoneNumber) then
       console_error (lit "No phone number available for API request");;
       mock_envelope rt
     else
       enc ← encodeURIComponent_of rt phoneNumber;
       console_log (lit "Making API request to:");;
       headers ← getHeaders;
       response ← fetch rt
         {| req_url := API_BASE_URL rt ++ lit "/health-data?days=" ++
                       dec_Z (default 7 days) ++ lit "&phoneNumber=" ++ enc;
            req_method := lit "GET";
            req_headers := headers |};
       if negb (ok response) then
         errorText ← text response;
         console_error (lit "API Error Response:");;
         throw (Error (match errorText with
                       | [] => lit "Failed to get health data"
                       | _ => errorText
                       end))
       else (b ← json_body response; mret (Body b)))
    (fun error =>
       console_error (lit "Error fetching health data:");;
       mock_envelope rt).
Proof. reflexivity. Qed.

Lemma fallback_result rt msg w :
  exists r w', (console_error msg;; mock_envelope rt) w = (Ok r, w') /\
               mock_fallback rt r /\ requests w' = requests w.
Proof.
  unfold mbind, M_bind, console_error.
  match goal with
  | |- context [mock_envelope rt ?w0] =>
      destruct (mock_envelope_result rt w0) as (r & w' & E & Hr & Hq)
  end.
  exists r, w'. by rewrite E.
Qed.

Ltac fallback rt :=
  unfold mbind, M_bind, mret, M_ret, throw, console_error;
  try match goal with H : JSON_parse _ = None |- _ => rewrite H end;
  match goal with
  | |- context [mock_envelope rt ?w0] =>
      let r := fresh "r" in let w' := fresh "w'" in
      let E := fresh "E" in let Hr := fresh "Hr" in let Hq := fresh "Hq" in
      destruct (mock_envelope_result rt w0) as (r & w' & E & Hr & Hq);
      rewrite E; simpl in Hq; exists r, w'; split; [reflexivity |]
  end.

Lemma getHealthData_cases rt days w :
  exists r w', getHealthData rt days w = (Ok r, w') /\
    ((mock_fallback rt r /\ requests w' = requests w) \/
     (exists rq, requests w' = requests w ++ [rq] /\
       match network rt (requests w) rq with
       | inl _ => mock_fallback rt r
       | inr resp =>
           if ok resp then
             match body resp ≫= JSON_parse with
             | Some b => r = Body b
             | None => mock_fallback rt r
             end
           else mock_fallback rt r
       end)).
Proof.
  rewrite getHealthData_unfold. unfold try_catch at 1.
  unfold mbind at 1, M_bind at 1.
  pose proof (getPhoneNumber_frame w) as (_ & _ & F1).
  destruct (getPhoneNumber w) as [[v | e] w1]; simpl in F1.
  2: { fallback rt. left. split; [done | congruence]. }
  destruct (truthy v) eqn:Hv; cbn [negb].
  2: { fallback rt. left. split; [done | congruence]. }
  unfold mbind at 1, M_bind at 1.
  unfold encodeURIComponent_of, or_throw.
  unfold mbind at 1, M_bind at 1.
  destruct (ToString (Number_toString rt) v) as [sv |]; cbn [mret M_ret throw].
  2: { fallback rt. left. split; [done | congruence]. }
  destruct (encodeURIComponent sv) as [enc |]; cbn [mret M_ret throw].
  2: { fallback rt. left. split; [done | congruence]. }
  unfold mbind at 1, M_bind at 1. unfold console_log at 1.
  unfold mbind at 1, M_bind at 1.
  match goal with |- context [getHeaders ?w0] =>
    pose proof (getHeaders_frame w0) as (_ & _ & F2);
    destruct (getHeaders w0) as [[h | e] w2]; simpl in F2 end.
  2: { fallback rt. left. split; [done | congruence]. }
  unfold mbind at 1, M_bind at 1. unfold fetch at 1.
  rewrite F2, F1.
  match goal with |- context [network rt (requests w) ?rq0] =>
    set (rq := rq0); destruct (network rt (requests w) rq) as [e | resp] eqn:N end.
  { fallback rt. right. exists rq. rewrite N. split; [| done].
    by rewrite Hq. }
  destruct (ok resp) eqn:Hok; cbn [negb].
  - unfold json_body, text, or_throw.
    destruct (body resp) as [t |] eqn:Hb.
    + destruct (JSON_parse t) as [b |] eqn:Hp.
      * unfold mbind, M_bind, mret, M_ret. rewrite Hp.
        eexists _, _. split; [reflexivity |]. right. exists rq.
        split; [reflexivity |]. rewrite N, Hok, Hb. simpl. by rewrite Hp.
      * fallback rt. right. exists rq. rewrite N, Hok, Hb. simpl. rewrite Hp.
        split; [| done]. by rewrite Hq.
    + fallback rt. right. exists rq. rewrite N, Hok, Hb. simpl.
      split; [| done]. by rewrite Hq.
  - unfold text, or_throw.
    destruct (body resp) as [t |] eqn:Hb;
      fallback rt; right; exists rq; rewrite N, Hok;
      (split; [| done]); by rewrite Hq.
Qed.

Lemma getHealthData_no_identity rt days w :
  (getPhoneNumber w).1 = Ok JNull ->
  exists r w', getHealthData rt days w = (Ok r, w') /\
               mock_fallback rt r /\ requests w' = requests w.
Proof.
  intros H. rewrite getHealthData_unfold. unfold try_catch at 1.
  unfold mbind at 1, M_bind at 1.
  pose proof (getPhoneNumber_frame w) as (_ & _ & F1).
  destruct (getPhoneNumber w) as [[v | e] w1]; simpl in H, F1; [| done].
  injection H as ->. cbn [truthy negb].
  fallback rt. split; [done | congruence].
Qed.

(** C1, amended: [getHealthData] always returns a result and never raises.
    With no stored identity the result is the mock envelope
    [{ success: true, data }] and nothing is sent. When it sent a request and
    [fetch] raised, or the response was not 2xx, the result is the mock
    envelope too. When the response was 2xx and its body parsed, the result is
    that body, unmodified. So a result whose [success] is [false] is never an
    envelope of its own: it can only be the body of a 2xx response. *)
Theorem getHealthData_fallback (rt : Runtime) (days : option Z) (w : World) :
  let out := getHealthData rt days w in
  (exists r, out.1 = Ok r) /\
  (forall r, out.1 = Ok r ->
     ((getPhoneNumber w).1 = Ok JNull ->
      mock_fallback rt r /\ requests out.2 = requests w) /\
     (forall rq, requests out.2 = requests w ++ [rq] ->
        (forall e, network rt (requests w) rq = inl e -> mock_fallback rt r) /\
        (forall resp, network rt (requests w) rq = inr resp ->
           (ok resp = false -> mock_fallback rt r) /\
           (forall b, ok resp = true -> body resp ≫= JSON_parse = Some b ->
                      r = Body b))) /\
     (failure_envelope r = true ->
      exists rq resp b,
        requests out.2 = requests w ++ [rq] /\
        network rt (requests w) rq = inr resp /\
        ok resp = true /\ body resp ≫= JSON_parse = Some b /\ r = Body b)).
Proof.
  intros out.
  destruct (getHealthData_cases rt days w) as (r & w' & E & Hcases).
  unfold out. rewrite E. cbn [fst snd]. split; [by exists r |].
  intros r' [= <-]. split; [| split].
  - intros Hnone.
    destruct (getHealthData_no_identity rt days w Hnone) as (r2 & w2 & E2 & H2).
    rewrite E in E2. by injection E2 as <- <-.
  - intros rq Hrq.
    destruct Hcases as [[Hf Hq] | (rq' & Hq & Hn)].
    + rewrite Hq in Hrq. apply (f_equal length) in Hrq.
      rewrite length_app in Hrq. simpl in Hrq. lia.
    + rewrite Hq in Hrq. apply app_inj_tail in Hrq as [_ ->].
      split.
      * intros e He. by rewrite He in Hn.
      * intros resp Hresp. rewrite Hresp in Hn. split.
        -- intros Hok. by rewrite Hok in Hn.
        -- intros b Hok Hb. by rewrite Hok, Hb in Hn.
  - intros Hfail.
    assert (mock_fallback rt r -> False) as Hno.
    { intros (? & ? & ? & ? & _ & _ & ->). discriminate. }
    destruct Hcases as [[Hf _] | (rq & Hq & Hn)]; [done |].
    destruct (network rt (requests w) rq) as [e | resp] eqn:N; [done |].
    destruct (ok resp) eqn:Hok; [| done].
    destruct (body resp ≫= JSON_parse) as [b |] eqn:Hb; [| done].
    by exists rq, resp, b.
Qed.

(** C1 as stated fails: with a session stored and a server that answers 200
    with the body [{"success":false}], [getHealthData] returns that body, an
    object whose [success] is [false]. *)
Lemma getHealthData_returns_refusal :
  (getPhoneNumber logged_in).1 = Ok (JStr (lit "15551234567")) /\
  (getHealthData (service 200 refusal) (Some 7) logged_in).1 =
    Ok (Body (JObj [(lit "success", JBool false)])) /\
  failure_envelope (Body (JObj [(lit "success", JBool false)])) = true.
Proof. by vm_compute. Qed.

(** ** getMessages with an identity *)

Lemma getMessages_cases rt w :
  exists r w', getMessages rt w = (Ok r, w') /\
    match storage w !! lit "phoneNumber" with
    | Some (c :: s) =>
        match encodeURIComponent (c :: s) with
        | None =>
            requests w' = requests w /\
            r = messages_failure (JStr (lit "Failed to get messages"))
        | Some enc =>
            exists rq,
              requests w' = requests w ++ [rq] /\
              req_url rq = API_BASE_URL rt ++ lit "/api/messages?phoneNumber=" ++ enc /\
              match network rt (requests w) rq with
              | inl _ => r = messages_failure (JStr (lit "Failed to get messages"))
              | inr resp =>
                  match body resp ≫= JSON_parse with
                  | None => r = messages_failure (JStr (lit "Failed to get messages"))
                  | Some b =>
                      if ok resp then
                        match get_prop b (lit "messages") with
                        | Some M =>
                            r = {| ApiResponse.success := true;
                                   ApiResponse.data := M;
                                   ApiResponse.error := None |}
                        | None =>
                            r = messages_failure (JStr (lit "Failed to get messages"))
                        end
                      else
                        match get_prop b (lit "error") with
                        | Some e =>
                            r = messages_failure
                                  (or_else e (JStr (lit "Failed to get messages")))
                        | None =>
                            r = messages_failure (JStr (lit "Failed to get messages"))
                        end
                  end
              end
        end
    | _ =>
        requests w' = requests w /\
        r = messages_failure (JStr (lit "No phone number found"))
    end.
Proof.
  destruct (storage w !! lit "phoneNumber") as [[| c s] |] eqn:Hp;
    try (rewrite getMessages_no_identity by (by rewrite Hp);
         eexists _, _; by split).
  unfold getMessages, try_catch.
  unfold mbind at 1, M_bind at 1, localStorage_getItem at 1.
  rewrite Hp. cbv beta iota.
  unfold mbind at 1, M_bind at 1, or_throw at 1.
  destruct (encodeURIComponent (c :: s)) as [enc |].
  2: { unfold throw at 1. cbv beta iota. eexists _, _. by split. }
  unfold mret at 1, M_ret at 1. cbv beta iota.
  unfold mbind at 1, M_bind at 1, localStorage_getItem at 1. cbv beta iota.
  unfold mbind at 1, M_bind at 1.
  destruct (absent (storage w !! lit "token"));
    [| unfold mbind at 1, M_bind at 1, localStorage_getItem at 1;
       cbv beta iota ];
    unfold mret at 1, M_ret at 1; cbv beta iota;
    unfold mbind at 1, M_bind at 1, fetch at 1; cbv beta iota zeta;
    match goal with
    | |- context [network rt (requests w) ?rq0] => set (rq := rq0)
    end;
    (destruct (network rt (requests w) rq) as [e | resp] eqn:N; cbv beta iota;
     [ eexists _, _; split; [done |]; exists rq; by rewrite N |]);
    unfold json_body, text, prop, or_throw; munfold;
    destruct (ok resp) eqn:Hok; cbn [negb]; cbv beta iota;
    (destruct (body resp) as [t |] eqn:Hb; cbv beta iota;
     [ destruct (JSON_parse t) as [b |] eqn:Hj; cbv beta iota;
       [ match goal with |- context [get_prop b ?k] =>
           destruct (get_prop b k) as [x |] eqn:Hg end; cbv beta iota |] |]);
    (eexists _, _; split; [done |]; exists rq;
     rewrite N, Hb; cbn [mbind option_bind]; rewrite ?Hj, ?Hok, ?Hg; done).
Qed.

(** C6: when [getMessages] has sent its request and the network answered it
    with a 2xx response whose body parses to an object with [messages = M],
    [getMessages] returns [{ success: true, data: M }], [M] as it was in the
    body. In terms of the state: with a non-empty identity [p] under
    [phoneNumber] that [encodeURIComponent] accepts, and a network that so
    answers the request for [/api/messages?phoneNumber=p], exactly that
    request is sent and that result returned. *)
Theorem getMessages_unwraps
    (rt : Runtime) (w : World) (resp : Response) (b M : json) :
  ok resp = true ->
  body resp ≫= JSON_parse = Some b ->
  get_prop b (lit "messages") = Some (Some M) ->
  let success :=
    Ok {| ApiResponse.success := true;
          ApiResponse.data := Some M;
          ApiResponse.error := None |} in
  (forall rq,
      requests (getMessages rt w).2 = requests w ++ [rq] ->
      network rt (requests w) rq = inr resp ->
      (getMessages rt w).1 = success) /\
  (forall p enc,
      storage w !! lit "phoneNumber" = Some p -> p <> [] ->
      encodeURIComponent p = Some enc ->
      (forall rq,
          req_url rq = API_BASE_URL rt ++ lit "/api/messages?phoneNumber=" ++ enc ->
          network rt (requests w) rq = inr resp) ->
      (getMessages rt w).1 = success /\
      exists rq,
        requests (getMessages rt w).2 = requests w ++ [rq] /\
        req_url rq = API_BASE_URL rt ++ lit "/api/messages?phoneNumber=" ++ enc).
Proof.
  intros Hok Hb HM success.
  destruct (getMessages_cases rt w) as (r & w' & E & Hcases).
  rewrite E. cbn [fst snd]. split.
  - intros rq Hq Hnet.
    destruct (storage w !! lit "phoneNumber") as [[| c s] |].
    2: destruct (encodeURIComponent (c :: s)).
    2: { destruct Hcases as (rq' & Hq' & _ & Hr).
         rewrite Hq' in Hq. apply app_inj_tail in Hq as [_ ->].
         rewrite Hnet, Hb, Hok, HM in Hr. by subst r. }
    all: destruct Hcases as [Hq' _]; rewrite Hq' in Hq;
      apply (f_equal length) in Hq; rewrite length_app in Hq; simpl in Hq; lia.
  - intros p enc Hp Hne Henc Hnet. rewrite Hp in Hcases.
    destruct p as [| c s]; [done |]. rewrite Henc in Hcases.
    destruct Hcases as (rq & Hq & Hurl & Hr).
    rewrite (Hnet rq Hurl), Hb, Hok, HM in Hr. subst r.
    split; [done |]. by exists rq.
Qed.

(** C10, amended: [logout] leaves every key other than [healthBuddieToken] and
    [healthBuddieUser] as it was, in particular [phoneNumber] and [token]; so
    when [phoneNumber] holds a non-empty string that [encodeURIComponent]
    accepts, [getMessages] called after [logout] sends a request for
    [/api/messages?phoneNumber=...]. *)
Theorem logout_keeps_plain_identity (rt : Runtime) (w : World) :
  let w' := (logout w).2 in
  (forall k, k <> lit "healthBuddieToken" -> k <> lit "healthBuddieUser" ->
             storage w' !! k = storage w !! k) /\
  storage w' !! lit "phoneNumber" = storage w !! lit "phoneNumber" /\
  storage w' !! lit "token" = storage w !! lit "token" /\
  (forall p enc,
      storage w !! lit "phoneNumber" = Some p -> p <> [] ->
      encodeURIComponent p = Some enc ->
      exists rq,
        requests (getMessages rt w').2 = requests w ++ [rq] /\
        req_url rq = API_BASE_URL rt ++ lit "/api/messages?phoneNumber=" ++ enc).
Proof.
  intros w'.
  assert (forall k, k <> lit "healthBuddieToken" -> k <> lit "healthBuddieUser" ->
                    storage w' !! k = storage w !! k) as Hframe.
  { intros k H1 H2. unfold w'. rewrite logout_result. cbn [snd storage].
    by rewrite !lookup_delete_ne. }
  split; [done |].
  split; [apply Hframe; [apply key_phone_token | apply key_phone_user] |].
  split; [apply Hframe; [apply key_plain_token_token | apply key_plain_token_user] |].
  intros p enc Hp Hne Henc.
  destruct (getMessages_cases rt w') as (r & w2 & E & Hcases).
  rewrite E. cbn [snd].
  rewrite Hframe, Hp in Hcases by (apply key_phone_token || apply key_phone_user).
  destruct p as [| c s]; [done |]. rewrite Henc in Hcases.
  destruct Hcases as (rq & Hq & Hurl & _).
  exists rq. split; [| done]. rewrite Hq. unfold w'. by rewrite logout_result.
Qed.

(** C10 as stated fails: with [phoneNumber] set to a lone surrogate, or set to
    the empty string, [getMessages] after [logout] sends no request. *)
Lemma getMessages_after_logout_sends_nothing :
  let rt := service 200 inbox in
  let w1 := plain_phone [55296%N] in
  let w2 := plain_phone [] in
  (storage (logout w1).2 !! lit "phoneNumber" = Some [55296%N] /\
   (getMessages rt (logout w1).2).1 =
     Ok (messages_failure (JStr (lit "Failed to get messages"))) /\
   requests (getMessages rt (logout w1).2).2 = []) /\
  (storage (logout w2).2 !! lit "phoneNumber" = Some [] /\
   (getMessages rt (logout w2).2).1 =
     Ok (messages_failure (JStr (lit "No phone number found"))) /\
   requests (getMessages rt (logout w2).2).2 = []).
Proof. by vm_compute. Qed.

(** ** The theorems at sample inputs *)

Lemma getHealthData_fallback_witness :
  (exists r, (getHealthData (service 500 []) None logged_in).1 = Ok r /\
             getPhoneNumber logged_in = (Ok (JStr (lit "15551234567")), logged_in) /\
             mock_fallback (service 500 []) r) /\
  (exists r, (getHealthData offline None logged_in).1 = Ok r /\
             mock_fallback offline r) /\
  (exists r, (getHealthData (service 200 refusal) None fresh_world).1 = Ok r /\
             mock_fallback (service 200 refusal) r) /\
  (exists r, (getHealthData (service 200 refusal) None logged_in).1 = Ok r /\
             r = Body (JObj [(lit "success", JBool false)]) /\
             exists rq, requests (getHealthData (service 200 refusal) None
                                    logged_in).2 = [rq]).
Proof.
  split; [| split; [| split]].
  - destruct (getHealthData_fallback (service 500 []) None logged_in) as [[r Hr] H].
    exists r. split; [exact Hr |]. split; [by vm_compute |].
    destruct (H r Hr) as (_ & Hsent & _).
    refine (proj1 (proj2 (Hsent _ _) {| status := 500; body := Some [] |} _) _);
      by vm_compute.
  - destruct (getHealthData_fallback offline None logged_in) as [[r Hr] H].
    exists r. split; [exact Hr |].
    destruct (H r Hr) as (_ & Hsent & _).
    refine (proj1 (Hsent _ _) TypeError _); by vm_compute.
  - destruct (getHealthData_fallback (service 200 refusal) None fresh_world)
      as [[r Hr] H].
    exists r. split; [exact Hr |].
    destruct (H r Hr) as (Hnone & _). by apply Hnone.
  - destruct (getHealthData_fallback (service 200 refusal) None logged_in)
      as [[r Hr] H].
    exists r. split; [exact Hr |].
    destruct (H r Hr) as (_ & Hsent & Hfail).
    assert (r = Body (JObj [(lit "success", JBool false)])) as ->.
    { refine (proj2 (proj2 (Hsent _ _) {| status := 200; body := Some refusal |} _)
                _ _ _); by vm_compute. }
    split; [done |].
    destruct Hfail as (rq & _ & _ & Hq & _); [reflexivity |]. by exists rq.
Defined.

Lemma login_establishes_session_witness :
  (isAuthenticated logged_in).1 = Ok true /\
  (getPhoneNumber logged_in).1 = Ok (JStr (lit "15551234567")).
Proof.
  pose proof (login_establishes_session (service 200 []) (lit "15551234567")
                fresh_world
                {| LoginResult.success := true;
                   LoginResult.user :=
                     login_user (service 200 []) (lit "15551234567") fresh_world |}
                logged_in) as H.
  destruct H as (H1 & H2 & _); [discriminate | by vm_compute |].
  by split.
Defined.

Lemma getMessages_blind_to_login_witness :
  (getMessages (service 200 inbox) logged_in).1 =
    Ok (messages_failure (JStr (lit "No phone number found"))) /\
  (isAuthenticated logged_in).1 = Ok true.
Proof.
  pose proof (getMessages_blind_to_login (service 200 inbox) (lit "15551234567")
                fresh_world
                {| LoginResult.success := true;
                   LoginResult.user :=
                     login_user (service 200 inbox) (lit "15551234567") fresh_world |}
                logged_in) as H.
  destruct H as (_ & H1 & _ & H2); [reflexivity | by vm_compute |].
  split; [exact H1 | apply H2; discriminate].
Defined.

Lemma no_identity_no_request_witness :
  (getMessages (service 200 inbox) fresh_world).1 =
    Ok (messages_failure (JStr (lit "No phone number found"))) /\
  requests (getMessages (service 200 inbox) fresh_world).2 = [] /\
  requests (testApiConnection (service 200 inbox) fresh_world).2 = [].
Proof.
  destruct (no_identity_no_request (service 200 inbox) fresh_world)
    as (H1 & H2 & _).
  destruct H1 as [H1 H1']; [reflexivity |].
  destruct H2 as [_ H2]; [reflexivity |].
  repeat split; assumption.
Defined.

Lemma getMessages_unwraps_witness :
  (getMessages (service 200 inbox) (plain_phone (lit "15551234567"))).1 =
  Ok {| ApiResponse.success := true;
        ApiResponse.data := Some (JArr [JStr (lit "hi")]);
        ApiResponse.error := None |}.
Proof.
  pose proof (getMessages_unwraps (service 200 inbox)
                (plain_phone (lit "15551234567"))
                {| status := 200; body := Some inbox |}
                (JObj [(lit "messages", JArr [JStr (lit "hi")])])
                (JArr [JStr (lit "hi")])) as H.
  destruct H as [Hsent Hstate]; [by vm_compute.. |].
  assert ((getMessages (service 200 inbox) (plain_phone (lit "15551234567"))).1 =
          Ok {| ApiResponse.success := true;
                ApiResponse.data := Some (JArr [JStr (lit "hi")]);
                ApiResponse.error := None |}) as H1.
  { eapply Hsent; by vm_compute. }
  destruct (Hstate (lit "15551234567") (lit "15551234567")) as [H2 _];
    solve [by vm_compute | discriminate | reflexivity | exact H2].
Defined.

Lemma getHeaders_of_session_witness :
  (getHeaders logged_in).1 =
    Ok (<[ lit "Authorization" := JStr (lit "Bearer demo-token-1700000000003") ]>
          (<[ lit "X-Phone-Number" := JStr (lit "15551234567") ]>
             {[ lit "Content-Type" := JStr (lit "application/json") ]})) /\
  (getHeaders fresh_world).1 =
    Ok {[ lit "Content-Type" := JStr (lit "application/json") ]}.
Proof.
  split.
  - apply (proj1 (getHeaders_of_session logged_in)
             (JStr (lit "15551234567")) (lit "demo-token-1700000000003"));
      solve [by vm_compute | discriminate].
  - apply (proj2 (getHeaders_of_session fresh_world)); reflexivity.
Defined.

Lemma logout_idempotent_witness : (logout fresh_world).2 = fresh_world.
Proof.
  apply (proj1 (proj2 (proj2 (logout_idempotent fresh_world)))); reflexivity.
Defined.

Lemma getPhoneNumber_never_raises_witness :
  (getPhoneNumber broken_profile).1 = Ok JNull /\
  (isAuthenticated broken_profile).1 = Ok false.
Proof.
  apply (proj1 (proj2 (getPhoneNumber_never_raises broken_profile)) (lit "{oops"));
    [reflexivity | left; reflexivity].
Defined.

Lemma logout_keeps_plain_identity_witness :
  storage (logout logged_in).2 !! lit "theme" = storage logged_in !! lit "theme" /\
  exists rq,
    requests (getMessages (service 200 inbox)
                (logout (plain_phone (lit "15551234567"))).2).2 = [rq] /\
    req_url rq =
      lit "http://localhost:3000/api/api/messages?phoneNumber=15551234567".
Proof.
  split.
  - apply (proj1 (logout_keeps_plain_identity offline logged_in));
      by vm_compute.
  - apply (proj2 (proj2 (proj2 (logout_keeps_plain_identity (service 200 inbox)
                                  (plain_phone (lit "15551234567")))))
             (lit "15551234567") (lit "15551234567"));
      solve [by vm_compute | discriminate | reflexivity].
Defined.

(** * Further properties of the code *)

Lemma mock_envelope_at rt w :
  exists r w', mock_envelope rt w = (Ok r, w') /\
               mock_fallback_at rt (reads w) r /\
               storage w' = storage w /\ requests w' = requests w /\
               reads w' = S (S (reads w)).
Proof.
  eexists _, _. split; [reflexivity |]. split; [| done].
  eexists w, _, _, _. split; [reflexivity |]. split; [| by repeat split].
  reflexivity.
Qed.

Ltac fallback_at rt :=
  unfold mbind, M_bind, mret, M_ret, throw, console_error;
  try match goal with H : JSON_parse _ = None |- _ => rewrite H end;
  match goal with
  | |- context [mock_envelope rt ?w0] =>
      let r := fresh "r" in let w' := fresh "w'" in
      let E := fresh "E" in let Hr := fresh "Hr" in
      let Hs := fresh "Hs" in let Hq := fresh "Hq" in let Hc := fresh "Hc" in
      destruct (mock_envelope_at rt w0) as (r & w' & E & Hr & Hs & Hq & Hc);
      rewrite E; cbn [storage requests reads] in Hr, Hs, Hq, Hc;
      exists r, w'; split; [reflexivity |]
  end.

Lemma getHeaders_same_storage w1 w2 :
  storage w1 = storage w2 -> (getHeaders w1).1 = (getHeaders w2).1.
Proof. intros H. by rewrite !getHeaders_result, H. Qed.

Lemma getHealthData_run rt days w :
  exists r w', getHealthData rt days w = (Ok r, w') /\
    storage w' = storage w /\
    match encoded_identity rt w with
    | None =>
        requests w' = requests w /\
        mock_fallback_at rt (reads w) r /\ reads w' = S (S (reads w))
    | Some enc =>
        exists rq,
          requests w' = requests w ++ [rq] /\
          req_url rq = API_BASE_URL rt ++ lit "/health-data?days=" ++
                       dec_Z (default 7 days) ++ lit "&phoneNumber=" ++ enc /\
          req_method rq = lit "GET" /\
          Ok (req_headers rq) = (getHeaders w).1 /\
          match network rt (requests w) rq with
          | inl _ => mock_fallback_at rt (reads w) r /\ reads w' = S (S (reads w))
          | inr resp =>
              if ok resp then
                match body resp ≫= JSON_parse with
                | Some b => r = Body b /\ reads w' = reads w
                | None =>
                    mock_fallback_at rt (reads w) r /\ reads w' = S (S (reads w))
                end
              else mock_fallback_at rt (reads w) r /\ reads w' = S (S (reads w))
          end
    end.
Proof.
  rewrite getHealthData_unfold. unfold try_catch at 1, encoded_identity.
  unfold mbind at 1, M_bind at 1.
  pose proof (getPhoneNumber_result w) as R1.
  pose proof (getPhoneNumber_frame w) as (S1 & C1 & F1).
  destruct (getPhoneNumber w) as [[v | e] w1]; simpl in R1, S1, C1, F1; [| done].
  injection R1 as <-.
  destruct (truthy v) eqn:Hv; cbn [negb].
  2: { fallback_at rt. split; [congruence |]. repeat split; congruence. }
  unfold mbind at 1, M_bind at 1.
  unfold encodeURIComponent_of, or_throw.
  unfold mbind at 1, M_bind at 1.
  destruct (ToString (Number_toString rt) v) as [sv |];
    cbn [mret M_ret throw mbind option_bind].
  2: { fallback_at rt. split; [congruence |]. repeat split; congruence. }
  destruct (encodeURIComponent sv) as [enc |]; cbn [mret M_ret throw].
  2: { fallback_at rt. split; [congruence |]. repeat split; congruence. }
  unfold mbind at 1, M_bind at 1. unfold console_log at 1.
  unfold mbind at 1, M_bind at 1.
  match goal with |- context [getHeaders ?w0] =>
    pose proof (getHeaders_frame w0) as (S2 & C2 & F2);
    pose proof (getHeaders_same_storage w0 w S1) as R2;
    destruct (getHeaders w0) as [[h | e] w2]; cbn [fst snd storage reads requests] in S2, C2, F2, R2 end.
  2: { rewrite getHeaders_result in R2. discriminate. }
  unfold mbind at 1, M_bind at 1. unfold fetch at 1.
  rewrite F2, F1.
  match goal with |- context [network rt (requests w) ?rq0] =>
    set (rq := rq0); destruct (network rt (requests w) rq) as [e | resp] eqn:N end.
  { fallback_at rt. split; [congruence |]. exists rq. rewrite N.
    repeat split; try done; congruence. }
  destruct (ok resp) eqn:Hok; cbn [negb].
  - unfold json_body, text, or_throw.
    destruct (body resp) as [t |] eqn:Hb.
    + destruct (JSON_parse t) as [b |] eqn:Hp.
      * unfold mbind, M_bind, mret, M_ret. rewrite Hp.
        eexists _, _. split; [reflexivity |]. split; [cbn; congruence |].
        exists rq. rewrite N, Hok, Hb. cbn [mbind option_bind]. rewrite Hp.
        repeat split; try done. cbn. congruence.
      * fallback_at rt. split; [congruence |]. exists rq.
        rewrite N, Hok, Hb. cbn [mbind option_bind]. rewrite Hp.
        repeat split; try done; congruence.
    + fallback_at rt. split; [congruence |]. exists rq.
      rewrite N, Hok, Hb. repeat split; try done; congruence.
  - unfold text, or_throw.
    destruct (body resp) as [t |] eqn:Hb;
      fallback_at rt; (split; [congruence |]); exists rq; rewrite N, Hok;
      repeat split; try done; congruence.
Qed.

Lemma getMessages_run rt w :
  exists r w', getMessages rt w = (Ok r, w') /\
    storage w' = storage w /\ reads w' = reads w /\
    match storage w !! lit "phoneNumber" with
    | Some (c :: s) =>
        match encodeURIComponent (c :: s) with
        | None =>
            requests w' = requests w /\
            r = messages_failure (JStr (lit "Failed to get messages"))
        | Some enc =>
            exists rq,
              requests w' = requests w ++ [rq] /\
              req_url rq = API_BASE_URL rt ++ lit "/api/messages?phoneNumber=" ++ enc /\
              req_method rq = lit "GET" /\
              req_headers rq = messages_headers (storage w !! lit "token") /\
              match network rt (requests w) rq with
              | inl _ => r = messages_failure (JStr (lit "Failed to get messages"))
              | inr resp =>
                  match body resp ≫= JSON_parse with
                  | None => r = messages_failure (JStr (lit "Failed to get messages"))
                  | Some b =>
                      if ok resp then
                        match get_prop b (lit "messages") with
                        | Some M =>
                            r = {| ApiResponse.success := true;
                                   ApiResponse.data := M;
                                   ApiResponse.error := None |}
                        | None =>
                            r = messages_failure (JStr (lit "Failed to get messages"))
                        end
                      else
                        match get_prop b (lit "error") with
                        | Some e =>
                            r = messages_failure
                                  (or_else e (JStr (lit "Failed to get messages")))
                        | None =>
                            r = messages_failure (JStr (lit "Failed to get messages"))
                        end
                  end
              end
        end
    | _ =>
        requests w' = requests w /\
        r = messages_failure (JStr (lit "No phone number found"))
    end.
Proof.
  destruct (storage w !! lit "phoneNumber") as [[| c s] |] eqn:Hp;
    try (rewrite getMessages_no_identity by (by rewrite Hp);
         eexists _, _; by repeat split).
  unfold getMessages, try_catch.
  unfold mbind at 1, M_bind at 1, localStorage_getItem at 1.
  rewrite Hp. cbv beta iota.
  unfold mbind at 1, M_bind at 1, or_throw at 1.
  destruct (encodeURIComponent (c :: s)) as [enc |].
  2: { unfold throw at 1. cbv beta iota. eexists _, _. by repeat split. }
  unfold mret at 1, M_ret at 1. cbv beta iota.
  unfold mbind at 1, M_bind at 1, localStorage_getItem at 1. cbv beta iota.
  unfold mbind at 1, M_bind at 1.
  assert (forall T, storage w !! lit "token" = Some T -> absent (Some T) = false ->
                    <[ lit "Authorization" := JStr (lit "Bearer " ++ T) ]>
                      ({[ lit "Content-Type" := JStr (lit "application/json") ]}
                         : gmap jsstr json)
                    = messages_headers (storage w !! lit "token")) as HT.
  { intros T -> HT. by destruct T. }
  assert (absent (storage w !! lit "token") = true ->
          ({[ lit "Content-Type" := JStr (lit "application/json") ]}
             : gmap jsstr json) = messages_headers (storage w !! lit "token")) as HN.
  { by destruct (storage w !! lit "token") as [[| ? ?] |]. }
  destruct (absent (storage w !! lit "token")) eqn:Habs;
    [ rewrite (HN eq_refl)
    | unfold mbind at 1, M_bind at 1, localStorage_getItem at 1;
      cbv beta iota;
      destruct (storage w !! lit "token") as [T |] eqn:HTok; [| done];
      change (default (lit "null") (Some T)) with T;
      rewrite (HT T eq_refl Habs) ];
    clear HT HN;
    unfold mret at 1, M_ret at 1; cbv beta iota;
    unfold mbind at 1, M_bind at 1, fetch at 1; cbv beta iota zeta;
    match goal with
    | |- context [network rt (requests w) ?rq0] => set (rq := rq0)
    end;
    (destruct (network rt (requests w) rq) as [e | resp] eqn:N; cbv beta iota;
     [ eexists _, _; split; [done |]; do 2 (split; [done |]);
       exists rq; by rewrite N |]);
    unfold json_body, text, prop, or_throw; munfold;
    destruct (ok resp) eqn:Hok; cbn [negb]; cbv beta iota;
    (destruct (body resp) as [t |] eqn:Hb; cbv beta iota;
     [ destruct (JSON_parse t) as [b |] eqn:Hj; cbv beta iota;
       [ match goal with |- context [get_prop b ?k] =>
           destruct (get_prop b k) as [x |] eqn:Hg end; cbv beta iota |] |]);
    (eexists _, _; split; [done |]; do 2 (split; [done |]); exists rq;
     rewrite N, Hb; cbn [mbind option_bind]; rewrite ?Hj, ?Hok, ?Hg; done).
Qed.

Lemma testApiConnection_run rt w :
  exists r w', testApiConnection rt w = (Ok r, w') /\
    storage w' = storage w /\ reads w' = reads w /\
    let I := stored_identity (storage w !! lit "healthBuddieUser") in
    if truthy I then
      match ToString (Number_toString rt) I with
      | None => requests w' = requests w /\ r = test_failure TypeError
      | Some s =>
          match encodeURIComponent s with
          | None => requests w' = requests w /\ r = test_failure URIError
          | Some enc =>
              exists rq,
                requests w' = requests w ++ [rq] /\
                req_url rq = API_BASE_URL rt ++ lit "/messages?phoneNumber=" ++ enc /\
                req_method rq = lit "GET" /\
                Ok (req_headers rq) = (getHeaders w).1 /\
                match network rt (requests w) rq with
                | inl e => r = test_failure e
                | inr resp =>
                    if ok resp then
                      r = {| TestResult.success := true;
                             TestResult.message := Some (lit "API is reachable");
                             TestResult.error := None |}
                    else
                      let errorData :=
                        match body resp ≫= JSON_parse with
                        | Some b => b
                        | None =>
                            JObj [ (lit "error",
                                    JStr (lit "HTTP error! status: " ++
                                          dec_Z (status resp))) ]
                        end in
                      match get_prop errorData (lit "error") with
                      | None => r = test_failure TypeError
                      | Some e =>
                          match ToString (Number_toString rt)
                                  (or_else e (JStr (lit "API is not reachable"))) with
                          | Some msg => r = test_failure (Error msg)
                          | None => r = test_failure TypeError
                          end
                      end
                end
          end
      end
    else
      requests w' = requests w /\
      r = test_failure (Error (lit "No phone number available. Please log in again.")).
Proof.
  unfold testApiConnection. unfold try_catch at 1.
  unfold mbind at 1, M_bind at 1.
  pose proof (getPhoneNumber_result w) as R1.
  pose proof (getPhoneNumber_frame w) as (S1 & C1 & F1).
  destruct (getPhoneNumber w) as [[v | e] w1]; simpl in R1, S1, C1, F1; [| done].
  injection R1 as <-. cbv zeta.
  destruct (truthy v) eqn:Hv; cbn [negb].
  2: { eexists _, _. split; [reflexivity |]. by repeat split. }
  unfold mbind at 1, M_bind at 1.
  pose proof (getHeaders_frame w1) as (S2 & C2 & F2).
  pose proof (getHeaders_same_storage w1 w S1) as R2.
  destruct (getHeaders w1) as [[h | e] w2];
    cbn [fst snd storage reads requests] in S2, C2, F2, R2.
  2: { rewrite getHeaders_result in R2. discriminate. }
  unfold mbind at 1, M_bind at 1, console_log at 1. cbv beta iota.
  unfold mbind at 1, M_bind at 1, encodeURIComponent_of, or_throw.
  unfold mbind at 1, M_bind at 1.
  destruct (ToString (Number_toString rt) v) as [sv |];
    cbn [mret M_ret throw]; cbv beta iota.
  2: { eexists _, _. split; [reflexivity |]. cbn. repeat split; congruence. }
  destruct (encodeURIComponent sv) as [enc |]; cbn [mret M_ret throw]; cbv beta iota.
  2: { eexists _, _. split; [reflexivity |]. cbn. repeat split; congruence. }
  unfold mbind at 1, M_bind at 1, fetch at 1. cbv beta iota zeta.
  cbn [requests]. rewrite F2, F1.
  match goal with |- context [network rt (requests w) ?rq0] => set (rq := rq0) end.
  destruct (network rt (requests w) rq) as [e | resp] eqn:N; cbv beta iota.
  { eexists _, _. split; [reflexivity |]. cbn.
    do 2 (split; [congruence |]). exists rq. by rewrite N. }
  destruct (ok resp) eqn:Hok; cbn [negb].
  { eexists _, _. split; [reflexivity |]. cbn.
    do 2 (split; [congruence |]). exists rq. by rewrite N, Hok. }
  unfold json_body, text, prop, or_throw. munfold. cbv beta iota.
  destruct (body resp) as [t |] eqn:Hb; cbv beta iota;
    [ destruct (JSON_parse t) as [b |] eqn:Hj; cbv beta iota |];
    cbn [mbind option_bind]; rewrite ?Hj;
    match goal with |- context [get_prop ?d (lit "error")] =>
      destruct (get_prop d (lit "error")) as [x |] eqn:Hg end; cbv beta iota;
    try match goal with |- context [ToString (Number_toString rt) ?y] =>
      destruct (ToString (Number_toString rt) y) as [msg |] eqn:Hm end;
    cbv beta iota;
    (eexists _, _; split; [reflexivity |]; cbn [storage reads requests];
     do 2 (split; [congruence |]); exists rq;
     rewrite N, Hok, Hb; cbn [mbind option_bind]; rewrite ?Hj; cbv zeta;
     rewrite ?Hg, ?Hm; done).
Qed.

(** X1: [getPhoneNumber] returns either [null] or a truthy value: never an
    empty string, zero or [false]. Its callers' test [!phoneNumber] is a test
    for [null]. *)
Theorem getPhoneNumber_null_or_truthy (w : World) :
  exists v, (getPhoneNumber w).1 = Ok v /\ (v = JNull \/ truthy v = true).
Proof.
  eexists. split; [apply getPhoneNumber_result |]. apply stored_identity_cases.
Qed.

(** X2: [getPhoneNumber] leaves storage, clock and request log as they were. It
    writes to the console exactly when reading the profile raised (the stored
    text is non-empty and is not JSON, or is the JSON [null]): then one error
    entry "Error getting phone number:" is appended; otherwise nothing. *)
Theorem getPhoneNumber_effects (w : World) :
  let w' := (getPhoneNumber w).2 in
  storage w' = storage w /\ reads w' = reads w /\ requests w' = requests w /\
  console w' =
    console w ++
    (if profile_raises (storage w !! lit "healthBuddieUser")
     then [(Err, lit "Error getting phone number:")] else []).
Proof.
  unfold getPhoneNumber, profile_raises, prop. munfold. cbn [fst snd].
  destruct (storage w !! lit "healthBuddieUser") as [[| c s] |];
    try by rewrite app_nil_r.
  destruct (JSON_parse (c :: s)) as [u |]; cbn [snd]; [| done].
  destruct u; cbn [get_prop snd storage reads requests console];
    by rewrite ?app_nil_r.
Qed.

(** X3: with no profile stored, with an empty profile text, or with a profile
    that parses to a value other than [null] that has no truthy [phoneNumber]
    (an object without the key, an array, a string, a number),
    [getPhoneNumber] returns [null] and changes nothing, the console
    included. *)
Theorem getPhoneNumber_missing (w : World) :
  (storage w !! lit "healthBuddieUser" = None \/
   storage w !! lit "healthBuddieUser" = Some [] \/
   exists s u,
     storage w !! lit "healthBuddieUser" = Some s /\
     JSON_parse s = Some u /\ u <> JNull /\
     forall v, get_prop u (lit "phoneNumber") = Some (Some v) -> truthy v = false) ->
  getPhoneNumber w = (Ok JNull, w).
Proof.
  intros H.
  assert (forall st rd rq co,
            {| storage := st; reads := rd; requests := rq; console := co ++ [] |}
            = {| storage := st; reads := rd; requests := rq; console := co |}) as Hw
    by (intros; by rewrite app_nil_r).
  unfold getPhoneNumber, prop. munfold.
  destruct H as [-> | [-> | (s & u & -> & Hu & Hnn & Hf)]];
    try (destruct w; reflexivity).
  destruct s as [| c s]; [destruct w; reflexivity |].
  rewrite Hu.
  destruct u; try done; cbn [get_prop or_else]; try (destruct w; reflexivity).
  destruct (obj_get (lit "phoneNumber") props) as [v |] eqn:E;
    cbn [or_else]; [| destruct w; reflexivity].
  rewrite (Hf v) by (cbn [get_prop]; by rewrite E). destruct w; reflexivity.
Qed.

(** X4: [isAuthenticated] returns true exactly when a non-empty token is stored
    and [getPhoneNumber] finds an identity. It never changes storage, clock or
    request log, and when no token is stored it changes nothing at all: the
    profile is not even read. *)
Theorem isAuthenticated_iff (w : World) :
  let w' := (isAuthenticated w).2 in
  exists b,
    (isAuthenticated w).1 = Ok b /\
    (b = true <->
     absent (storage w !! lit "healthBuddieToken") = false /\
     (getPhoneNumber w).1 <> Ok JNull) /\
    storage w' = storage w /\ reads w' = reads w /\ requests w' = requests w /\
    (absent (storage w !! lit "healthBuddieToken") = true -> w' = w).
Proof.
  intros w'. eexists. split; [apply isAuthenticated_result |].
  rewrite getPhoneNumber_result.
  assert (storage w' = storage w /\ reads w' = reads w /\ requests w' = requests w /\
          (absent (storage w !! lit "healthBuddieToken") = true -> w' = w)) as Hfr.
  { unfold w', isAuthenticated, getToken. munfold. cbn [fst snd].
    destruct (absent (storage w !! lit "healthBuddieToken")) eqn:Ha.
    - cbn [snd]. by repeat split.
    - pose proof (getPhoneNumber_frame w) as F.
      destruct (getPhoneNumber w) as [[v | e] w1]; cbn [snd] in F |- *;
        destruct F as (? & ? & ?); by repeat split. }
  split; [| exact Hfr].
  destruct (absent (storage w !! lit "healthBuddieToken")); cbn [negb andb].
  - split; [done | by intros [? _]].
  - destruct (stored_identity_cases (storage w !! lit "healthBuddieUser"))
      as [-> | Ht].
    + split; [done | by intros [_ ?]].
    + rewrite Ht. split; [| done]. intros _. split; [done |].
      intros [= E]. by rewrite E in Ht.
Qed.

(** X5: the header object [getHeaders] returns always has [Content-Type:
    application/json]; it has [X-Phone-Number] exactly when an identity is
    found, holding that identity; it has [Authorization] exactly when a
    non-empty token is stored, holding [Bearer] and the token; it has no other
    entry. [getHeaders] changes neither storage nor request log. *)
Theorem getHeaders_entries (w : World) :
  exists h I,
    (getHeaders w).1 = Ok h /\ (getPhoneNumber w).1 = Ok I /\
    h !! lit "Content-Type" = Some (JStr (lit "application/json")) /\
    h !! lit "X-Phone-Number" = (if truthy I then Some I else None) /\
    h !! lit "Authorization" =
      match storage w !! lit "healthBuddieToken" with
      | Some (c :: s) => Some (JStr (lit "Bearer " ++ c :: s))
      | _ => None
      end /\
    (forall k, k <> lit "Content-Type" -> k <> lit "X-Phone-Number" ->
               k <> lit "Authorization" -> h !! k = None) /\
    storage (getHeaders w).2 = storage w /\
    requests (getHeaders w).2 = requests w.
Proof.
  eexists _, _. split; [apply getHeaders_result |].
  split; [apply getPhoneNumber_result |].
  destruct (getHeaders_frame w) as (Fs & _ & Fq).
  cbv zeta.
  assert (lit "Content-Type" <> lit "X-Phone-Number") as N1 by by vm_compute.
  assert (lit "Content-Type" <> lit "Authorization") as N2 by by vm_compute.
  assert (lit "X-Phone-Number" <> lit "Authorization") as N3 by by vm_compute.
  destruct (truthy (stored_identity _));
    destruct (storage w !! lit "healthBuddieToken") as [[| c s] |];
    repeat split; try done;
    try (intros k K1 K2 K3);
    by simplify_map_eq.
Qed.

(** Every outcome of [login], with the state it leaves. *)
Lemma login_run rt P w :
  let st1 := <[ lit "healthBuddieUser" := login_text rt P w ]> (storage w) in
  if quota rt (storage w) (lit "healthBuddieUser") (login_text rt P w) then
    if quota rt st1 (lit "healthBuddieToken") (login_token rt w) then
      login rt P w =
      (Ok {| LoginResult.success := true; LoginResult.user := login_user rt P w |},
       {| storage := <[ lit "healthBuddieToken" := login_token rt w ]> st1;
          reads := S (S (S (S (reads w))));
          requests := requests w;
          console := (console w ++ [(Log, lit "Logging in with phone number:")]) ++
                     [(Log, lit "User saved to localStorage:")] |})
    else
      login rt P w =
      (Throw QuotaExceededError,
       {| storage := st1;
          reads := S (S (S (S (reads w))));
          requests := requests w;
          console := (console w ++ [(Log, lit "Logging in with phone number:")]) ++
                     [(Err, lit "Login error:")] |})
  else
    login rt P w =
    (Throw QuotaExceededError,
     {| storage := storage w;
        reads := S (S (S (reads w)));
        requests := requests w;
        console := (console w ++ [(Log, lit "Logging in with phone number:")]) ++
                   [(Err, lit "Login error:")] |}).
Proof.
  unfold login, login_text, login_token. munfold. cbn [storage reads requests console].
  fold (login_user rt P w).
  destruct (quota rt (storage w) _ _); [| reflexivity].
  cbn [storage reads requests console].
  destruct (quota rt (<[_ := _]> (storage w)) _ _); reflexivity.
Qed.

(** X6: a [login] that returns has changed no key but [healthBuddieUser] and
    [healthBuddieToken], has sent no request, and has read the clock four
    times: the second and third readings are the profile's [createdAt] and
    [lastActive], the fourth is the number in the stored token
    [demo-token-...]. *)
Theorem login_effects
    (rt : Runtime) (P : jsstr) (w : World) (res : LoginResult.t) (w' : World) :
  login rt P w = (Ok res, w') ->
  (forall k, k <> lit "healthBuddieUser" -> k <> lit "healthBuddieToken" ->
             storage w' !! k = storage w !! k) /\
  storage w' !! lit "healthBuddieToken" =
    Some (lit "demo-token-" ++ dec_Z (clock rt (3 + reads w)%nat)) /\
  User.createdAt (LoginResult.user res) = clock rt (1 + reads w)%nat /\
  User.lastActive (LoginResult.user res) = clock rt (2 + reads w)%nat /\
  reads w' = (4 + reads w)%nat /\
  requests w' = requests w.
Proof.
  intros H. pose proof (login_run rt P w) as R. cbv zeta in R.
  destruct (quota rt (storage w) _ _); [| congruence].
  destruct (quota rt (<[_ := _]> (storage w)) _ _); [| congruence].
  rewrite R in H. injection H as <- <-. cbn [storage reads requests].
  repeat split.
  - intros k K1 K2. by rewrite !lookup_insert_ne.
  - by rewrite lookup_insert_eq.
Qed.

(** X7: a [login] that raises raises the storage's [QuotaExceededError], after
    logging "Login error:", and has sent no request. It has either written
    nothing or written the profile only; the token key is as it was, so the
    token is never written without the profile. *)
Theorem login_failure
    (rt : Runtime) (P : jsstr) (w : World) (e : exn) (w' : World) :
  login rt P w = (Throw e, w') ->
  e = QuotaExceededError /\
  (storage w' = storage w \/
   storage w' = <[ lit "healthBuddieUser" := login_text rt P w ]> (storage w)) /\
  storage w' !! lit "healthBuddieToken" = storage w !! lit "healthBuddieToken" /\
  requests w' = requests w /\
  last (console w') = Some (Err, lit "Login error:").
Proof.
  intros H. pose proof (login_run rt P w) as R. cbv zeta in R.
  destruct (quota rt (storage w) _ _).
  - destruct (quota rt (<[_ := _]> (storage w)) _ _); [congruence |].
    rewrite R in H. injection H as <- <-. cbn [storage requests console].
    split; [done |]. split; [by right |].
    split; [by rewrite lookup_insert_ne by apply not_eq_sym, key_token_user |].
    split; [done |]. by rewrite last_snoc.
  - rewrite R in H. injection H as <- <-. cbn [storage requests console].
    split; [done |]. split; [by left |]. do 2 (split; [done |]).
    by rewrite last_snoc.
Qed.

(** X8: [logout] after a returned [login] leaves the storage the state before
    the [login] had, minus the two session keys; when no session was stored
    before the [login], the storage is exactly as it was. *)
Theorem login_then_logout
    (rt : Runtime) (P : jsstr) (w : World) (res : LoginResult.t) (w' : World) :
  login rt P w = (Ok res, w') ->
  storage (logout w').2 =
    delete (lit "healthBuddieUser") (delete (lit "healthBuddieToken") (storage w)) /\
  (storage w !! lit "healthBuddieToken" = None ->
   storage w !! lit "healthBuddieUser" = None ->
   storage (logout w').2 = storage w).
Proof.
  intros H. destruct (login_returns _ _ _ _ _ H) as (_ & Hst & _).
  assert (storage (logout w').2 =
          delete (lit "healthBuddieUser")
            (delete (lit "healthBuddieToken") (storage w))) as E.
  { rewrite logout_result. cbn [snd storage]. rewrite Hst.
    rewrite delete_insert_eq.
    rewrite (delete_delete _ (lit "healthBuddieUser") (lit "healthBuddieToken")).
    rewrite delete_insert_eq. apply delete_delete. }
  split; [exact E |]. intros Ht Hu. rewrite E.
  rewrite (delete_id (storage w)) by done. by apply delete_id.
Qed.

(** X9: after a returned [login P] with non-empty [P], [getHeaders] returns
    [Content-Type], [X-Phone-Number: P] and [Authorization: Bearer
    demo-token-t], [t] being the fourth clock reading of that [login]. *)
Theorem login_then_getHeaders
    (rt : Runtime) (P : jsstr) (w : World) (res : LoginResult.t) (w' : World) :
  P <> [] ->
  login rt P w = (Ok res, w') ->
  (getHeaders w').1 =
  Ok (<[ lit "Authorization" :=
           JStr (lit "Bearer demo-token-" ++ dec_Z (clock rt (3 + reads w)%nat)) ]>
        (<[ lit "X-Phone-Number" := JStr P ]>
           {[ lit "Content-Type" := JStr (lit "application/json") ]})).
Proof.
  intros HP H.
  destruct (login_stores_identity _ _ _ _ _ HP H) as (_ & Hid & _).
  destruct (login_returns _ _ _ _ _ H) as (_ & Hst & _).
  rewrite getHeaders_result, Hid. cbv zeta. cbn [truthy].
  rewrite Hst, lookup_insert_eq. by destruct P.
Qed.


Lemma app_singleton_inv {A} (l : list A) (x y : A) :
  l ++ [x] = l ++ [y] -> x = y.
Proof. intros H. by apply app_inj_tail in H as [_ ->]. Qed.

Lemma app_singleton_neq {A} (l : list A) (x : A) : l <> l ++ [x].
Proof.
  intros H. apply (f_equal length) in H. rewrite length_app in H.
  simpl in H. lia.
Qed.

Lemma mock_fallback_at_dates rt n s d :
  mock_fallback_at rt n (Envelope s d) ->
  s = true /\
  ExerciseLog.date <$> HealthData.exerciseLogs d =
    [days_before (clock rt n) 1; days_before (clock rt n) 2;
     days_before (clock rt n) 4] /\
  FoodLog.date <$> HealthData.foodLogs d =
    [days_before (clock rt (S n)) 1; days_before (clock rt (S n)) 2;
     days_before (clock rt (S n)) 3].
Proof.
  intros (wa & wb & ex & fo & Ha & Hb & Hex & Hfo & [= -> ->]).
  cbn in Hex, Hfo. injection Hex as <-. injection Hfo as <-.
  rewrite Ha, Hb. cbn. unfold days_before, ms_per_day.
  repeat split; repeat f_equal; lia.
Qed.


(** X11: whenever [getHealthData] returns an envelope of its own (any fallback
    exit), its [success] is true, its exercise logs are dated 1, 2 and 4 days
    before one clock reading and its food logs 1, 2 and 3 days before the next
    reading: the two lists come from two separate readings of the clock. The
    argument [days] and the network play no part. *)
Theorem getHealthData_envelope_dates
    (rt : Runtime) (days : option Z) (w : World) (s : bool) (d : HealthData.t) :
  (getHealthData rt days w).1 = Ok (Envelope s d) ->
  s = true /\
  ExerciseLog.date <$> HealthData.exerciseLogs d =
    [days_before (clock rt (reads w)) 1; days_before (clock rt (reads w)) 2;
     days_before (clock rt (reads w)) 4] /\
  FoodLog.date <$> HealthData.foodLogs d =
    [days_before (clock rt (S (reads w))) 1; days_before (clock rt (S (reads w))) 2;
     days_before (clock rt (S (reads w))) 3] /\
  reads (getHealthData rt days w).2 = (2 + reads w)%nat.
Proof.
  destruct (getHealthData_run rt days w) as (r & w' & E & _ & Hrun).
  rewrite E. cbn [fst snd]. intros [= ->].
  assert (mock_fallback_at rt (reads w) (Envelope s d) /\
          reads w' = S (S (reads w))) as [Hf Hc].
  { destruct (encoded_identity rt w); [| by destruct Hrun as (_ & ? & ?)].
    destruct Hrun as (rq & _ & _ & _ & _ & Hn).
    destruct (network rt (requests w) rq); [done |].
    destruct (ok _); [| done].
    destruct (body _ ≫= JSON_parse); [by destruct Hn | done]. }
  destruct (mock_fallback_at_dates _ _ _ _ Hf) as (? & ? & ?). done.
Qed.

(** X12: with an identity that cannot be put in a URL (its conversion to a
    string raises, or [encodeURIComponent] raises on a lone surrogate),
    [getHealthData] returns the success envelope and sends no request. *)
Theorem getHealthData_unencodable_identity
    (rt : Runtime) (days : option Z) (w : World) (I : json) :
  (getPhoneNumber w).1 = Ok I -> truthy I = true ->
  ToString (Number_toString rt) I ≫= encodeURIComponent = None ->
  (exists d, (getHealthData rt days w).1 = Ok (Envelope true d)) /\
  requests (getHealthData rt days w).2 = requests w.
Proof.
  rewrite getPhoneNumber_result. intros [= <-] Ht Hn.
  destruct (getHealthData_run rt days w) as (r & w' & E & _ & Hrun).
  unfold encoded_identity in Hrun. cbv zeta in Hrun. rewrite Ht, Hn in Hrun.
  destruct Hrun as (Hq & (? & ? & ex & fo & _ & _ & _ & _ & ->) & _).
  rewrite E. split; [by eexists | done].
Qed.


(** X14: [getHealthData] never writes to storage, sends at most one request,
    and reads the clock either not at all or twice (for the mock data). *)
Theorem getHealthData_frame (rt : Runtime) (days : option Z) (w : World) :
  let w' := (getHealthData rt days w).2 in
  storage w' = storage w /\
  (requests w' = requests w \/ exists rq, requests w' = requests w ++ [rq]) /\
  (reads w' = reads w \/ reads w' = (2 + reads w)%nat).
Proof.
  destruct (getHealthData_run rt days w) as (r & w' & E & Hs & Hrun).
  rewrite E. cbn [snd]. split; [done |].
  destruct (encoded_identity rt w).
  - destruct Hrun as (rq & Hq & _ & _ & _ & Hn).
    split; [right; by exists rq |].
    destruct (network rt (requests w) rq); [right; by destruct Hn |].
    destruct (ok _); [| right; by destruct Hn].
    destruct (body _ ≫= JSON_parse); [left | right]; by destruct Hn.
  - destruct Hrun as (Hq & _ & Hc). split; [by left | by right].
Qed.

(** What the run lemma says once an identity is stored and encodable. *)
Lemma getMessages_sent rt w p enc :
  storage w !! lit "phoneNumber" = Some p -> p <> [] ->
  encodeURIComponent p = Some enc ->
  exists r w' rq,
    getMessages rt w = (Ok r, w') /\
    requests w' = requests w ++ [rq] /\
    req_url rq = API_BASE_URL rt ++ lit "/api/messages?phoneNumber=" ++ enc /\
    req_method rq = lit "GET" /\
    req_headers rq = messages_headers (storage w !! lit "token").
Proof.
  intros Hp Hne He.
  destruct (getMessages_run rt w) as (r & w' & E & _ & _ & Hrun).
  rewrite Hp in Hrun. destruct p as [| c s]; [done |]. rewrite He in Hrun.
  destruct Hrun as (rq & ? & ? & ? & ? & _). by exists r, w', rq.
Qed.

(** What the run lemma says about the answer to the request that was sent. *)
Lemma getMessages_answered rt w rq :
  requests (getMessages rt w).2 = requests w ++ [rq] ->
  exists r, (getMessages rt w).1 = Ok r /\
    match network rt (requests w) rq with
    | inl _ => r = messages_failure (JStr (lit "Failed to get messages"))
    | inr resp =>
        match body resp ≫= JSON_parse with
        | None => r = messages_failure (JStr (lit "Failed to get messages"))
        | Some b =>
            if ok resp then
              match get_prop b (lit "messages") with
              | Some M =>
                  r = {| ApiResponse.success := true;
                         ApiResponse.data := M;
                         ApiResponse.error := None |}
              | None =>
                  r = messages_failure (JStr (lit "Failed to get messages"))
              end
            else
              match get_prop b (lit "error") with
              | Some e =>
                  r = messages_failure
                        (or_else e (JStr (lit "Failed to get messages")))
              | None =>
                  r = messages_failure (JStr (lit "Failed to get messages"))
              end
        end
    end.
Proof.
  destruct (getMessages_run rt w) as (r & w' & E & _ & _ & Hrun).
  rewrite E. cbn [fst snd]. intros Hq. exists r. split; [done |].
  destruct (storage w !! lit "phoneNumber") as [[| c s] |].
  2: destruct (encodeURIComponent (c :: s)).
  2: { destruct Hrun as (rq' & Hq' & _ & _ & _ & Hr).
       rewrite Hq' in Hq. by apply app_singleton_inv in Hq as ->. }
  all: destruct Hrun as [Hq' _]; rewrite Hq' in Hq;
    by apply app_singleton_neq in Hq.
Qed.

(** X15: with a non-empty identity under [phoneNumber] that encodes,
    [getMessages] sends exactly one request: a [GET] of
    [{base}/api/messages?phoneNumber={encoded identity}] whose headers are
    [Content-Type] and, exactly when the plain key [token] holds a non-empty
    string, [Authorization: Bearer] with that string. It never sends
    [X-Phone-Number], and the session token of [login] is not used. *)
Theorem getMessages_request
    (rt : Runtime) (w : World) (p enc : jsstr) :
  storage w !! lit "phoneNumber" = Some p -> p <> [] ->
  encodeURIComponent p = Some enc ->
  exists rq,
    requests (getMessages rt w).2 = requests w ++ [rq] /\
    req_url rq = API_BASE_URL rt ++ lit "/api/messages?phoneNumber=" ++ enc /\
    req_method rq = lit "GET" /\
    req_headers rq !! lit "Content-Type" = Some (JStr (lit "application/json")) /\
    req_headers rq !! lit "X-Phone-Number" = None /\
    req_headers rq !! lit "Authorization" =
      match storage w !! lit "token" with
      | Some (c :: s) => Some (JStr (lit "Bearer " ++ c :: s))
      | _ => None
      end.
Proof.
  intros Hp Hne He.
  destruct (getMessages_sent rt w p enc Hp Hne He)
    as (r & w' & rq & E & Hq & Hu & Hm & Hh).
  rewrite E. exists rq. do 3 (split; [done |]). rewrite Hh.
  unfold messages_headers.
  assert (lit "Content-Type" <> lit "X-Phone-Number") as N1 by by vm_compute.
  assert (lit "Content-Type" <> lit "Authorization") as N2 by by vm_compute.
  assert (lit "X-Phone-Number" <> lit "Authorization") as N3 by by vm_compute.
  destruct (storage w !! lit "token") as [[| c s] |]; by simplify_map_eq.
Qed.

(** X16: when the response to [getMessages]'s request is not 2xx and its body
    parses to a value other than [null], the result is
    [{ success: false, error }] where [error] is the body's [error] property
    if that is truthy and "Failed to get messages" otherwise. *)
Theorem getMessages_error_passthrough
    (rt : Runtime) (w : World) (rq : Request) (resp : Response) (b : json)
    (e : option json) :
  requests (getMessages rt w).2 = requests w ++ [rq] ->
  network rt (requests w) rq = inr resp ->
  ok resp = false ->
  body resp ≫= JSON_parse = Some b ->
  get_prop b (lit "error") = Some e ->
  (getMessages rt w).1 =
  Ok (messages_failure
        (match e with
         | Some v => if truthy v then v else JStr (lit "Failed to get messages")
         | None => JStr (lit "Failed to get messages")
         end)).
Proof.
  intros Hq Hn Hok Hb He.
  destruct (getMessages_answered rt w rq Hq) as (r & -> & Hr).
  rewrite Hn, Hb, Hok, He in Hr. by subst r.
Qed.

(** X17: when the response to [getMessages]'s request is 2xx and its body
    parses to a value that has no [messages] property, [getMessages] still
    returns [success: true], with [data] undefined. *)
Theorem getMessages_success_without_messages
    (rt : Runtime) (w : World) (rq : Request) (resp : Response) (b : json) :
  requests (getMessages rt w).2 = requests w ++ [rq] ->
  network rt (requests w) rq = inr resp ->
  ok resp = true ->
  body resp ≫= JSON_parse = Some b ->
  get_prop b (lit "messages") = Some None ->
  (getMessages rt w).1 =
  Ok {| ApiResponse.success := true;
        ApiResponse.data := None;
        ApiResponse.error := None |}.
Proof.
  intros Hq Hn Hok Hb He.
  destruct (getMessages_answered rt w rq Hq) as (r & -> & Hr).
  rewrite Hn, Hb, Hok, He in Hr. by subst r.
Qed.

(** X18: [getMessages] answers [{ success: false, error: "Failed to get
    messages" }] when the stored identity cannot be encoded (and then sends
    nothing), when [fetch] raises, and when the response body, whatever the
    status, cannot be read, is not JSON or is the JSON [null]. What was raised
    does not reach the caller. *)
Theorem getMessages_generic_failure (rt : Runtime) (w : World) :
  let generic := Ok (messages_failure (JStr (lit "Failed to get messages"))) in
  (forall p, storage w !! lit "phoneNumber" = Some p -> p <> [] ->
             encodeURIComponent p = None ->
             (getMessages rt w).1 = generic /\
             requests (getMessages rt w).2 = requests w) /\
  (forall rq, requests (getMessages rt w).2 = requests w ++ [rq] ->
     (forall e, network rt (requests w) rq = inl e -> (getMessages rt w).1 = generic) /\
     (forall resp, network rt (requests w) rq = inr resp ->
        body resp ≫= JSON_parse = None \/ body resp ≫= JSON_parse = Some JNull ->
        (getMessages rt w).1 = generic)).
Proof.
  intros generic. split.
  - intros p Hp Hne He.
    destruct (getMessages_run rt w) as (r & w' & E & _ & _ & Hrun).
    rewrite Hp in Hrun. destruct p as [| c s]; [done |]. rewrite He in Hrun.
    destruct Hrun as [Hq ->]. by rewrite E.
  - intros rq Hq.
    destruct (getMessages_answered rt w rq Hq) as (r & -> & Hr). split.
    + intros e He. rewrite He in Hr. by subst r.
    + intros resp Hn [Hb | Hb]; rewrite Hn, Hb in Hr; [by subst r |].
      cbn [get_prop] in Hr. destruct (ok resp); by subst r.
Qed.

(** X19: [getMessages] depends on the storage only through the keys
    [phoneNumber] and [token]: in two states that agree on these two keys and
    on the requests already sent, it returns the same result and sends the
    same request. It changes neither storage nor clock. *)
Theorem getMessages_reads_plain_keys (rt : Runtime) (w1 w2 : World) :
  storage w1 !! lit "phoneNumber" = storage w2 !! lit "phoneNumber" ->
  storage w1 !! lit "token" = storage w2 !! lit "token" ->
  requests w1 = requests w2 ->
  (getMessages rt w1).1 = (getMessages rt w2).1 /\
  requests (getMessages rt w1).2 = requests (getMessages rt w2).2 /\
  storage (getMessages rt w1).2 = storage w1 /\
  reads (getMessages rt w1).2 = reads w1.
Proof.
  intros Hp Ht Hq.
  destruct (getMessages_run rt w1) as (r1 & w1' & E1 & S1 & C1 & H1).
  destruct (getMessages_run rt w2) as (r2 & w2' & E2 & _ & _ & H2).
  rewrite E1, E2. cbn [fst snd]. rewrite <- Hp, <- Ht, <- Hq in H2.
  assert (r1 = r2 /\ requests w1' = requests w2') as [-> ->]; [| done].
  destruct (storage w1 !! lit "phoneNumber") as [[| c s] |].
  2: destruct (encodeURIComponent (c :: s)).
  2: { destruct H1 as (rq1 & Hq1 & Hu1 & Hm1 & Hh1 & Hr1).
       destruct H2 as (rq2 & Hq2 & Hu2 & Hm2 & Hh2 & Hr2).
       assert (rq1 = rq2) as <-.
       { destruct rq1, rq2. cbn in *. congruence. }
       split; [| congruence].
       destruct (network rt (requests w1) rq1) as [e | resp]; [congruence |].
       destruct (body resp ≫= JSON_parse) as [b |]; [| congruence].
       destruct (ok resp);
         match goal with |- context [_] =>
           match type of Hr1 with context [get_prop b ?k] =>
             destruct (get_prop b k) end end; congruence. }
  all: destruct H1 as [? ->]; destruct H2 as [? ->]; split; congruence.
Qed.

(** What the run lemma says about the answer to the probe that was sent. *)
Lemma testApiConnection_answered rt w rq :
  requests (testApiConnection rt w).2 = requests w ++ [rq] ->
  exists r, (testApiConnection rt w).1 = Ok r /\
    match network rt (requests w) rq with
    | inl e => r = test_failure e
    | inr resp =>
        if ok resp then
          r = {| TestResult.success := true;
                 TestResult.message := Some (lit "API is reachable");
                 TestResult.error := None |}
        else
          let errorData :=
            match body resp ≫= JSON_parse with
            | Some b => b
            | None =>
                JObj [ (lit "error",
                        JStr (lit "HTTP error! status: " ++ dec_Z (status resp))) ]
            end in
          match get_prop errorData (lit "error") with
          | None => r = test_failure TypeError
          | Some e =>
              match ToString (Number_toString rt)
                      (or_else e (JStr (lit "API is not reachable"))) with
              | Some msg => r = test_failure (Error msg)
              | None => r = test_failure TypeError
              end
          end
    end.
Proof.
  destruct (testApiConnection_run rt w) as (r & w' & E & _ & _ & Hrun).
  rewrite E. cbn [fst snd]. intros Hq. exists r. split; [done |].
  cbv zeta in Hrun.
  destruct (truthy _).
  2: { destruct Hrun as [Hq' _]. rewrite Hq' in Hq.
       by apply app_singleton_neq in Hq. }
  destruct (ToString _ _) as [s |].
  2: { destruct Hrun as [Hq' _]. rewrite Hq' in Hq.
       by apply app_singleton_neq in Hq. }
  destruct (encodeURIComponent s).
  2: { destruct Hrun as [Hq' _]. rewrite Hq' in Hq.
       by apply app_singleton_neq in Hq. }
  destruct Hrun as (rq' & Hq' & _ & _ & _ & Hr).
  rewrite Hq' in Hq. by apply app_singleton_inv in Hq as ->.
Qed.

(** X20: with an identity that converts to a string and encodes,
    [testApiConnection] sends exactly one request: a [GET] of
    [{base}/messages?phoneNumber={encoded identity}] with the headers
    [getHeaders] returns in that state; it changes neither storage nor
    clock. *)
Theorem testApiConnection_request
    (rt : Runtime) (w : World) (I : json) (s enc : jsstr) :
  (getPhoneNumber w).1 = Ok I -> truthy I = true ->
  ToString (Number_toString rt) I = Some s ->
  encodeURIComponent s = Some enc ->
  let w' := (testApiConnection rt w).2 in
  (exists rq,
      requests w' = requests w ++ [rq] /\
      req_url rq = API_BASE_URL rt ++ lit "/messages?phoneNumber=" ++ enc /\
      req_method rq = lit "GET" /\
      Ok (req_headers rq) = (getHeaders w).1) /\
  storage w' = storage w /\ reads w' = reads w.
Proof.
  rewrite getPhoneNumber_result. intros [= <-] Ht Hs He.
  destruct (testApiConnection_run rt w) as (r & w' & E & Hst & Hc & Hrun).
  cbv zeta in Hrun. rewrite Ht, Hs, He in Hrun.
  destruct Hrun as (rq & ? & ? & ? & ? & _).
  rewrite E. cbn [snd]. split; [by exists rq | done].
Qed.

(** X21: when the response to [testApiConnection]'s request is 2xx, the result
    is [{ success: true, message: "API is reachable" }], whatever the body:
    the body is not read. *)
Theorem testApiConnection_reachable
    (rt : Runtime) (w : World) (rq : Request) (resp : Response) :
  requests (testApiConnection rt w).2 = requests w ++ [rq] ->
  network rt (requests w) rq = inr resp ->
  ok resp = true ->
  (testApiConnection rt w).1 =
  Ok {| TestResult.success := true;
        TestResult.message := Some (lit "API is reachable");
        TestResult.error := None |}.
Proof.
  intros Hq Hn Hok.
  destruct (testApiConnection_answered rt w rq Hq) as (r & -> & Hr).
  rewrite Hn, Hok in Hr. by subst r.
Qed.

(** X22: when the response to [testApiConnection]'s request is not 2xx, the
    result is [{ success: false, error }] where [error] is an [Error] whose
    message is "HTTP error! status: " and the status when the body is not
    JSON, the body's [error] when that is a non-empty string, and "API is not
    reachable" when the body has no truthy [error]; a body that is the JSON
    [null] gives the [TypeError] of reading its property. *)
Theorem testApiConnection_error_message
    (rt : Runtime) (w : World) (rq : Request) (resp : Response) :
  requests (testApiConnection rt w).2 = requests w ++ [rq] ->
  network rt (requests w) rq = inr resp ->
  ok resp = false ->
  (body resp ≫= JSON_parse = None ->
   (testApiConnection rt w).1 =
   Ok (test_failure
         (Error (lit "HTTP error! status: " ++ dec_Z (status resp))))) /\
  (forall b m, body resp ≫= JSON_parse = Some b ->
               get_prop b (lit "error") = Some (Some (JStr m)) -> m <> [] ->
               (testApiConnection rt w).1 = Ok (test_failure (Error m))) /\
  (forall b e, body resp ≫= JSON_parse = Some b ->
               get_prop b (lit "error") = Some e ->
               (forall v, e = Some v -> truthy v = false) ->
               (testApiConnection rt w).1 =
               Ok (test_failure (Error (lit "API is not reachable")))) /\
  (body resp ≫= JSON_parse = Some JNull ->
   (testApiConnection rt w).1 = Ok (test_failure TypeError)).
Proof.
  intros Hq Hn Hok.
  destruct (testApiConnection_answered rt w rq Hq) as (r & -> & Hr).
  rewrite Hn, Hok in Hr. cbv zeta in Hr.
  split; [| split; [| split]].
  - intros Hb. rewrite Hb in Hr.
    match type of Hr with context [get_prop (JObj [(_, ?x)]) ?k] =>
      change (get_prop (JObj [(k, x)]) k) with (Some (Some x)) in Hr end.
    cbn [or_else truthy app lit map list_ascii_of_string ToString] in Hr.
    by subst r.
  - intros b m Hb He Hm. rewrite Hb, He in Hr. cbn [or_else truthy] in Hr.
    destruct m; [done |]. cbn [ToString] in Hr. by subst r.
  - intros b e Hb He Hf. rewrite Hb, He in Hr.
    assert (or_else e (JStr (lit "API is not reachable")) =
            JStr (lit "API is not reachable")) as Ho.
    { destruct e as [v |]; [| done]. cbn [or_else]. by rewrite (Hf v). }
    rewrite Ho in Hr. cbn [ToString] in Hr. by subst r.
  - intros Hb. rewrite Hb in Hr. cbn [get_prop] in Hr. by subst r.
Qed.

(** X23: [testApiConnection] hands the caller the exception itself: what
    [fetch] raised, the [TypeError] of an identity that cannot be converted to
    a string, or the [URIError] of one that cannot be encoded (in the last two
    cases nothing is sent). *)
Theorem testApiConnection_surfaces_exception (rt : Runtime) (w : World) :
  (forall rq e,
      requests (testApiConnection rt w).2 = requests w ++ [rq] ->
      network rt (requests w) rq = inl e ->
      (testApiConnection rt w).1 = Ok (test_failure e)) /\
  (forall I, (getPhoneNumber w).1 = Ok I -> truthy I = true ->
     (ToString (Number_toString rt) I = None ->
      (testApiConnection rt w).1 = Ok (test_failure TypeError) /\
      requests (testApiConnection rt w).2 = requests w) /\
     (forall s, ToString (Number_toString rt) I = Some s ->
                encodeURIComponent s = None ->
                (testApiConnection rt w).1 = Ok (test_failure URIError) /\
                requests (testApiConnection rt w).2 = requests w)).
Proof.
  split.
  - intros rq e Hq Hn.
    destruct (testApiConnection_answered rt w rq Hq) as (r & -> & Hr).
    rewrite Hn in Hr. by subst r.
  - rewrite getPhoneNumber_result. intros I [= <-] Ht.
    destruct (testApiConnection_run rt w) as (r & w' & E & _ & _ & Hrun).
    cbv zeta in Hrun. rewrite Ht in Hrun. rewrite E. cbn [fst snd]. split.
    + intros Hs. rewrite Hs in Hrun. by destruct Hrun as [? ->].
    + intros s Hs He. rewrite Hs, He in Hrun. by destruct Hrun as [? ->].
Qed.


Lemma getPhoneNumber_missing_witness :
  getPhoneNumber fresh_world = (Ok JNull, fresh_world) /\
  getPhoneNumber (with_profile []) = (Ok JNull, with_profile []) /\
  getPhoneNumber (with_profile (lit "{}")) = (Ok JNull, with_profile (lit "{}")).
Proof.
  split; [| split].
  - apply getPhoneNumber_missing. by left.
  - apply getPhoneNumber_missing. right. by left.
  - apply getPhoneNumber_missing. right. right.
    exists (lit "{}"), (JObj []). by repeat split.
Defined.

Lemma isAuthenticated_iff_witness :
  (isAuthenticated fresh_world).2 = fresh_world /\
  (isAuthenticated logged_in).1 = Ok true.
Proof.
  split.
  - destruct (isAuthenticated_iff fresh_world) as (b & _ & _ & _ & _ & _ & H).
    by apply H.
  - destruct (isAuthenticated_iff logged_in) as (b & -> & H & _).
    f_equal. apply H. by vm_compute.
Defined.

Lemma getHeaders_entries_witness :
  exists h, (getHeaders logged_in).1 = Ok h /\ h !! lit "Accept" = None.
Proof.
  destruct (getHeaders_entries logged_in) as (h & I & Hh & _ & _ & _ & _ & Hk & _).
  exists h. split; [exact Hh |]. apply Hk; by vm_compute.
Defined.

Lemma login_effects_witness :
  storage logged_in !! lit "healthBuddieToken" =
    Some (lit "demo-token-1700000000003") /\
  reads logged_in = 4%nat.
Proof.
  destruct (login_effects (service 200 []) (lit "15551234567") fresh_world
              {| LoginResult.success := true;
                 LoginResult.user :=
                   login_user (service 200 []) (lit "15551234567") fresh_world |}
              logged_in) as (_ & H1 & _ & _ & H2 & _); [by vm_compute |].
  split; [exact H1 | exact H2].
Defined.

Lemma login_failure_witness :
  (isAuthenticated (login tight_storage (lit "15551234567") fresh_world).2).1 =
    Ok false /\
  storage (login tight_storage (lit "15551234567") fresh_world).2
    !! lit "healthBuddieToken" = None /\
  exists e, (login full_storage (lit "15551234567") fresh_world).1 = Throw e /\
            e = QuotaExceededError.
Proof.
  split; [by vm_compute |]. split.
  - destruct (login_failure tight_storage (lit "15551234567") fresh_world
                QuotaExceededError
                (login tight_storage (lit "15551234567") fresh_world).2)
      as (_ & _ & H & _); [by vm_compute |]. exact H.
  - exists QuotaExceededError. split; [by vm_compute |].
    destruct (login_failure full_storage (lit "15551234567") fresh_world
                QuotaExceededError
                (login full_storage (lit "15551234567") fresh_world).2)
      as (H & _); [by vm_compute |]. exact H.
Defined.

Lemma login_then_logout_witness :
  storage (logout logged_in).2 = storage fresh_world.
Proof.
  destruct (login_then_logout (service 200 []) (lit "15551234567") fresh_world
              {| LoginResult.success := true;
                 LoginResult.user :=
                   login_user (service 200 []) (lit "15551234567") fresh_world |}
              logged_in) as (_ & H); [by vm_compute |].
  by apply H.
Defined.

Lemma login_then_getHeaders_witness :
  (getHeaders logged_in).1 =
  Ok (<[ lit "Authorization" := JStr (lit "Bearer demo-token-1700000000003") ]>
        (<[ lit "X-Phone-Number" := JStr (lit "15551234567") ]>
           {[ lit "Content-Type" := JStr (lit "application/json") ]})).
Proof.
  apply (login_then_getHeaders (service 200 []) (lit "15551234567") fresh_world
           {| LoginResult.success := true;
              LoginResult.user :=
                login_user (service 200 []) (lit "15551234567") fresh_world |}
           logged_in); [discriminate | by vm_compute].
Defined.


Lemma getHealthData_envelope_dates_witness :
  exists d,
    (getHealthData offline None fresh_world).1 = Ok (Envelope true d) /\
    FoodLog.date <$> HealthData.foodLogs d =
      [days_before 1700000000001 1; days_before 1700000000001 2;
       days_before 1700000000001 3].
Proof.
  assert (exists d, (getHealthData offline None fresh_world).1 = Ok (Envelope true d))
    as [d Hd] by (eexists; by vm_compute).
  exists d. split; [exact Hd |].
  by destruct (getHealthData_envelope_dates offline None fresh_world true d Hd)
    as (_ & _ & H & _).
Defined.

Lemma getHealthData_unencodable_identity_witness :
  requests (getHealthData (service 200 refusal) None
              (with_profile (profile_of (JStr [55296%N])))).2 = [].
Proof.
  destruct (getHealthData_unencodable_identity (service 200 refusal) None
              (with_profile (profile_of (JStr [55296%N]))) (JStr [55296%N]))
    as (_ & H); [by vm_compute.. |].
  exact H.
Defined.


Lemma getMessages_request_witness :
  exists rq,
    requests (getMessages (service 200 inbox)
                (plain_session (lit "+1 555") (lit "abc"))).2 = [rq] /\
    req_url rq = lit "http://localhost:3000/api/api/messages?phoneNumber=%2B1%20555" /\
    req_headers rq !! lit "Authorization" = Some (JStr (lit "Bearer abc")).
Proof.
  destruct (getMessages_request (service 200 inbox)
              (plain_session (lit "+1 555") (lit "abc"))
              (lit "+1 555") (lit "%2B1%20555"))
    as (rq & Hq & Hu & _ & _ & _ & Ha); [by vm_compute.. |].
  exists rq. split; [exact Hq |]. split; [exact Hu | exact Ha].
Defined.

Lemma getMessages_error_passthrough_witness :
  (getMessages (service 404 complaint) (plain_phone (lit "15551234567"))).1 =
  Ok (messages_failure (JStr (lit "No such user"))).
Proof.
  refine (getMessages_error_passthrough (service 404 complaint)
            (plain_phone (lit "15551234567")) _
            {| status := 404; body := Some complaint |}
            (JObj [(lit "error", JStr (lit "No such user"))])
            (Some (JStr (lit "No such user"))) _ _ _ _ _);
    by vm_compute.
Defined.

Lemma getMessages_success_without_messages_witness :
  (getMessages (service 200 (lit "{}")) (plain_phone (lit "15551234567"))).1 =
  Ok {| ApiResponse.success := true;
        ApiResponse.data := None;
        ApiResponse.error := None |}.
Proof.
  refine (getMessages_success_without_messages (service 200 (lit "{}"))
            (plain_phone (lit "15551234567")) _
            {| status := 200; body := Some (lit "{}") |} (JObj []) _ _ _ _ _);
    by vm_compute.
Defined.

Lemma getMessages_generic_failure_witness :
  (getMessages offline (plain_phone (lit "15551234567"))).1 =
    Ok (messages_failure (JStr (lit "Failed to get messages"))) /\
  (getMessages (service 500 (lit "oops")) (plain_phone (lit "15551234567"))).1 =
    Ok (messages_failure (JStr (lit "Failed to get messages"))) /\
  (getMessages (service 200 inbox) (plain_phone [55296%N])).1 =
    Ok (messages_failure (JStr (lit "Failed to get messages"))).
Proof.
  split; [| split].
  - refine (proj1 (proj2 (getMessages_generic_failure offline
                            (plain_phone (lit "15551234567"))) _ _) TypeError _);
      by vm_compute.
  - refine (proj2 (proj2 (getMessages_generic_failure (service 500 (lit "oops"))
                            (plain_phone (lit "15551234567"))) _ _)
              {| status := 500; body := Some (lit "oops") |} _ _);
      [by vm_compute | by vm_compute | left; by vm_compute].
  - refine (proj1 (proj1 (getMessages_generic_failure (service 200 inbox)
                            (plain_phone [55296%N])) [55296%N] _ _ _));
      by vm_compute.
Defined.

Lemma getMessages_reads_plain_keys_witness :
  (getMessages (service 200 inbox) (logout (plain_phone (lit "15551234567"))).2).1 =
  (getMessages (service 200 inbox) (plain_phone (lit "15551234567"))).1.
Proof.
  apply (getMessages_reads_plain_keys (service 200 inbox)
           (logout (plain_phone (lit "15551234567"))).2
           (plain_phone (lit "15551234567"))); by vm_compute.
Defined.

Lemma testApiConnection_request_witness :
  exists rq,
    requests (testApiConnection (service 200 inbox) logged_in).2 = [rq] /\
    req_url rq = lit "http://localhost:3000/api/messages?phoneNumber=15551234567".
Proof.
  destruct (testApiConnection_request (service 200 inbox) logged_in
              (JStr (lit "15551234567")) (lit "15551234567") (lit "15551234567"))
    as ((rq & Hq & Hu & _) & _); [by vm_compute.. |].
  exists rq. split; [exact Hq | exact Hu].
Defined.

Lemma testApiConnection_reachable_witness :
  (testApiConnection (service 204 (lit "not json")) logged_in).1 =
  Ok {| TestResult.success := true;
        TestResult.message := Some (lit "API is reachable");
        TestResult.error := None |}.
Proof.
  refine (testApiConnection_reachable (service 204 (lit "not json")) logged_in _
            {| status := 204; body := Some (lit "not json") |} _ _ _);
    by vm_compute.
Defined.

Lemma testApiConnection_error_message_witness :
  (testApiConnection (service 502 (lit "<html>")) logged_in).1 =
    Ok (test_failure (Error (lit "HTTP error! status: 502"))) /\
  (testApiConnection (service 404 complaint) logged_in).1 =
    Ok (test_failure (Error (lit "No such user"))) /\
  (testApiConnection (service 500 (lit "{}")) logged_in).1 =
    Ok (test_failure (Error (lit "API is not reachable"))) /\
  (testApiConnection (service 500 (lit "null")) logged_in).1 =
    Ok (test_failure TypeError).
Proof.
  split; [| split; [| split]].
  - refine (proj1 (testApiConnection_error_message (service 502 (lit "<html>"))
                     logged_in _ {| status := 502; body := Some (lit "<html>") |}
                     _ _ _) _); by vm_compute.
  - refine (proj1 (proj2 (testApiConnection_error_message (service 404 complaint)
                            logged_in _ {| status := 404; body := Some complaint |}
                            _ _ _))
              (JObj [(lit "error", JStr (lit "No such user"))])
              (lit "No such user") _ _ _); by vm_compute.
  - refine (proj1 (proj2 (proj2 (testApiConnection_error_message
                                   (service 500 (lit "{}")) logged_in _
                                   {| status := 500; body := Some (lit "{}") |}
                                   _ _ _)))
              (JObj []) None _ _ _); by vm_compute.
  - refine (proj2 (proj2 (proj2 (testApiConnection_error_message
                                   (service 500 (lit "null")) logged_in _
                                   {| status := 500; body := Some (lit "null") |}
                                   _ _ _))) _); by vm_compute.
Defined.

Lemma testApiConnection_surfaces_exception_witness :
  (testApiConnection offline logged_in).1 = Ok (test_failure TypeError) /\
  (testApiConnection offline (with_profile (profile_of (JStr [55296%N])))).1 =
    Ok (test_failure URIError) /\
  (testApiConnection offline
     (with_profile (profile_of (JObj [(lit "toString", JNull)])))).1 =
    Ok (test_failure TypeError).
Proof.
  split; [| split].
  - refine (proj1 (testApiConnection_surfaces_exception offline logged_in)
              _ TypeError _ _); by vm_compute.
  - refine (proj1 (proj2 (proj2 (testApiConnection_surfaces_exception offline
                                   (with_profile (profile_of (JStr [55296%N]))))
                            (JStr [55296%N]) _ _) [55296%N] _ _));
      by vm_compute.
  - refine (proj1 (proj1 (proj2 (testApiConnection_surfaces_exception offline
                                   (with_profile
                                      (profile_of (JObj [(lit "toString", JNull)]))))
                            (JObj [(lit "toString", JNull)]) _ _) _));
      by vm_compute.
Defined.
